(** * products.hpp: Bond and Interest Rate Swap products

    A shallow embedding of [products.hpp]: the [Product], [Bond] and [IRSwap]
    classes, their constructors and accessors, the seven [IRSwap::ToString]
    overloads and the three stream inserters ([operator<<] for
    [std::chrono::year_month_day], [Bond] and [IRSwap]).

    Output streams are modelled by explicit state passing: an [ostream] is
    the text written so far together with the two pieces of formatting state
    that the source manipulates, the field width ([std::setw], reset by every
    formatted insertion) and the fill character ([std::setfill], sticky).
    All other formatting state keeps the value a newly constructed stream
    has: decimal base, right adjustment, precision 6, the general floating
    point notation, the classic locale. *)

From Stdlib Require Import ZArith NArith List String Ascii Bool Lia.
From Stdlib Require Import Numbers.DecimalString.
From Stdlib Require Import DecimalPos DecimalN DecimalZ.
Import ListNotations.

Local Open Scope string_scope.
Local Open Scope Z_scope.

(* ===================================================================== *)
(** ** Output streams *)
(* ===================================================================== *)

Module Ostream.

(** The stream: text written so far, [width()] and [fill()]. *)
Record ostream : Type := mkOstream {
  buf : string;
  width : nat;
  fill : ascii
}.

(** A newly constructed [std::ostringstream]: nothing written, width 0,
    fill character space. *)
Definition ostringstream : ostream :=
  {| buf := ""; width := 0; fill := " "%char |}.

(** [str()] of a string stream. *)
Definition str (os : ostream) : string := buf os.

(** [n] copies of the character [c]. *)
Fixpoint replicate (n : nat) (c : ascii) : string :=
  match n with
  | O => ""
  | S k => String c (replicate k c)
  end.

(** Padding of a formatted field under right adjustment: fill characters
    go in front, up to the field width; a field at least as long as the
    width is written as it is, never cut. *)
Definition pad (os : ostream) (s : string) : string :=
  replicate (width os - String.length s) (fill os) ++ s.

(** Every formatted insertion writes its padded field and then calls
    [width(0)]. *)
Definition write_field (os : ostream) (s : string) : ostream :=
  {| buf := buf os ++ pad os s; width := 0; fill := fill os |}.

(** The manipulators of [<iomanip>] used by the source. *)
Inductive iomanip : Type :=
| setw (n : nat)
| setfill (c : ascii).

Definition apply_manip (os : ostream) (m : iomanip) : ostream :=
  match m with
  | setw n => {| buf := buf os; width := n; fill := fill os |}
  | setfill c => {| buf := buf os; width := width os; fill := c |}
  end.

(** Decimal text of a signed and of an unsigned integer. *)
Definition dec_int (z : Z) : string := NilZero.string_of_int (Z.to_int z).
Definition dec_unsigned (n : N) : string := NilZero.string_of_uint (N.to_uint n).

(** *** Floating point values and their default rendering

    A [double] is a signed zero, a signed infinity, a NaN, or a finite
    non-zero number [(-1)^neg * m * 2^e]; the values of the 64-bit format
    are among these. The source stores and prints such values and never
    computes with them. *)
Inductive double : Type :=
| d_zero (neg : bool)
| d_inf (neg : bool)
| d_nan (neg : bool)
| d_finite (neg : bool) (m : positive) (e : Z).

(** The stream's [precision()], never changed by the source. *)
Definition precision : Z := 6.

(** The fraction [n/d] times [10^k]. *)
Definition scale10 (n d k : Z) : Z * Z :=
  if 0 <=? k then (n * 10 ^ k, d) else (n, d * 10 ^ (- k)).

(** [floor (log10 n)] for positive [n]: one less than its number of
    decimal digits. *)
Definition log10 (n : Z) : Z := Z.of_nat (String.length (dec_int n)) - 1.

(** [floor (log10 (n/d))] for positive [n] and [d]. *)
Definition decimal_exponent (n d : Z) : Z :=
  let x := log10 n - log10 d in
  let '(n', d') := scale10 n d (- x) in
  if n' <? d' then x - 1 else x.

(** [n/d] rounded to the nearest integer, ties to even. *)
Definition round_half_even (n d : Z) : Z :=
  let q := n / d in
  match (2 * (n mod d)) ?= d with
  | Lt => q
  | Gt => q + 1
  | Eq => if Z.even q then q else q + 1
  end.

(** The [P] significant decimal digits of [n/d], as an integer [D] with
    [10^(P-1) <= D < 10^P], and the decimal exponent [X] of the rounded
    value: [n/d] is about [D * 10^(X-P+1)]. *)
Definition significand (P n d : Z) : Z * Z :=
  let X := decimal_exponent n d in
  let '(n', d') := scale10 n d (P - 1 - X) in
  let D := round_half_even n' d' in
  if D =? 10 ^ P then (10 ^ (P - 1), X + 1) else (D, X).

(** Removal of the trailing zeros of a fraction part. *)
Fixpoint strip_zeros (s : string) : string :=
  match s with
  | "" => ""
  | String c r =>
      match strip_zeros r with
      | "" => if Ascii.eqb c "0" then "" else String c ""
      | r' => String c r'
      end
  end.

(** Integer part, then the fraction part behind a point when it has a
    digit left. *)
Definition with_fraction (ip fp : string) : string :=
  match strip_zeros fp with
  | "" => ip
  | fp' => ip ++ "." ++ fp'
  end.

(** The exponent suffix of the scientific notation: sign and at least two
    digits. *)
Definition exponent_suffix (X : Z) : string :=
  let a := dec_int (Z.abs X) in
  "e" ++ (if X <? 0 then "-" else "+")
      ++ (if Z.abs X <? 10 then "0" ++ a else a).

(** The conversion [%g] at precision [P] of a positive fraction [n/d]:
    fixed notation when the exponent [X] of the rounded value has
    [-4 <= X < P], scientific notation otherwise; trailing zeros of the
    fraction part are dropped in both. *)
Definition general_notation (P n d : Z) : string :=
  let '(D, X) := significand P n d in
  let ds := dec_int D in
  if (-4 <=? X) && (X <? P) then
    if 0 <=? X then
      with_fraction (substring 0 (Z.to_nat (X + 1)) ds)
                    (substring (Z.to_nat (X + 1)) (Z.to_nat (P - 1 - X)) ds)
    else
      with_fraction "0" (replicate (Z.to_nat (- X - 1)) "0"%char ++ ds)
  else
    with_fraction (substring 0 1 ds) (substring 1 (Z.to_nat (P - 1)) ds)
      ++ exponent_suffix X.

(** Text of a [double] as [operator<<(double)] writes it with default
    flags: [%g] with the stream's precision. *)
Definition dec_double (x : double) : string :=
  let sign (neg : bool) := if neg then "-" else "" in
  match x with
  | d_zero neg => sign neg ++ "0"
  | d_inf neg => sign neg ++ "inf"
  | d_nan neg => sign neg ++ "nan"
  | d_finite neg m e =>
      sign neg ++
      (if 0 <=? e then general_notation precision (Z.pos m * 2 ^ e) 1
       else general_notation precision (Z.pos m) (2 ^ (- e)))
  end.

(** The overloads of [operator<<] that the source uses, one instance per
    right-hand type. *)
Class Inserter (A : Type) : Type := insert : ostream -> A -> ostream.

#[export] Instance insert_manip : Inserter iomanip := apply_manip.
#[export] Instance insert_string : Inserter string := write_field.
#[export] Instance insert_char : Inserter ascii :=
  fun os c => write_field os (String c "").
#[export] Instance insert_int : Inserter Z :=
  fun os z => write_field os (dec_int z).
#[export] Instance insert_unsigned : Inserter N :=
  fun os n => write_field os (dec_unsigned n).
#[export] Instance insert_double : Inserter double :=
  fun os x => write_field os (dec_double x).

End Ostream.

Export Ostream.

Notation "os << x" := (insert os x) (at level 55, left associativity).

(* ===================================================================== *)
(** ** Calendar dates *)
(* ===================================================================== *)

(** [std::chrono::year_month_day]: the three stored fields, with the values
    the conversions [int(ymd.year())], [unsigned(ymd.month())] and
    [unsigned(ymd.day())] read back. *)
Record year_month_day : Type := mkDate {
  year : Z;
  month : N;
  day : N
}.

(** [std::ostream& operator<<(std::ostream& os, const year_month_day& ymd)] *)
#[export] Instance insert_year_month_day : Inserter year_month_day :=
  fun os ymd =>
    let year := year ymd in
    let month := month ymd in
    let day := day ymd in
    os << year << "-"%char << setw 2 << setfill "0"%char << month
       << "-"%char << setw 2 << setfill "0"%char << day.

(** A date of the proleptic Gregorian calendar ([ymd.ok()]). *)
Definition is_leap (y : Z) : bool :=
  (y mod 4 =? 0) && (negb (y mod 100 =? 0) || (y mod 400 =? 0)).

Definition days_in_month (y : Z) (m : N) : N :=
  match m with
  | 2%N => if is_leap y then 29%N else 28%N
  | 4%N | 6%N | 9%N | 11%N => 30%N
  | _ => 31%N
  end.

Definition ok (ymd : year_month_day) : bool :=
  (-32767 <=? year ymd) && (year ymd <=? 32767)
  && (1 <=? month ymd)%N && (month ymd <=? 12)%N
  && (1 <=? day ymd)%N && (day ymd <=? days_in_month (year ymd) (month ymd))%N.

(** The text form [YYYY-MM-DD]: ten characters, decimal digits everywhere
    but for the two hyphens. *)
Definition is_digit (c : ascii) : bool :=
  let n := nat_of_ascii c in (48 <=? n)%nat && (n <=? 57)%nat.

Definition is_hyphen (c : ascii) : bool := Ascii.eqb c "-".

Definition is_YYYY_MM_DD (s : string) : bool :=
  match list_ascii_of_string s with
  | [y1; y2; y3; y4; h1; m1; m2; h2; d1; d2] =>
      forallb is_digit [y1; y2; y3; y4; m1; m2; d1; d2]
      && is_hyphen h1 && is_hyphen h2
  | _ => false
  end.

(* ===================================================================== *)
(** ** Member functions *)
(* ===================================================================== *)

(** A member function of a class [T] with result [A], in state-passing
    style: it gets the object and gives back its result and the object as
    the call leaves it. *)
Definition Method (T A : Type) : Type := T -> A * T.

(** The value of a call and the object after it. *)
Definition result {T A : Type} (m : Method T A) (this : T) : A := fst (m this).
Definition after {T A : Type} (m : Method T A) (this : T) : T := snd (m this).

(** The body [return e;] of a member function. *)
Definition Return {T A : Type} (e : T -> A) : Method T A :=
  fun this => (e this, this).

(** An accessor that changes nothing and answers the same when repeated. *)
Definition read_only {T A : Type} (m : Method T A) : Prop :=
  forall this : T,
    after m this = this /\ result m (after m this) = result m this.

(* ===================================================================== *)
(** ** Enumerations

    An unscoped enumeration is stored as an integer; its enumerators are
    names for the values 0, 1, 2, ... in declaration order. *)
(* ===================================================================== *)

Definition ProductType : Type := Z.
Definition IRSWAP : ProductType := 0.
Definition BOND : ProductType := 1.

Definition BondIdType : Type := Z.
Definition CUSIP : BondIdType := 0.
Definition ISIN : BondIdType := 1.

Definition DayCountConvention : Type := Z.
Definition THIRTY_THREE_SIXTY : DayCountConvention := 0.
Definition ACT_THREE_SIXTY : DayCountConvention := 1.

Definition PaymentFrequency : Type := Z.
Definition QUARTERLY : PaymentFrequency := 0.
Definition SEMI_ANNUAL : PaymentFrequency := 1.
Definition ANNUAL : PaymentFrequency := 2.

Definition FloatingIndex : Type := Z.
Definition LIBOR : FloatingIndex := 0.
Definition EURIBOR : FloatingIndex := 1.

Definition FloatingIndexTenor : Type := Z.
Definition TENOR_1M : FloatingIndexTenor := 0.
Definition TENOR_3M : FloatingIndexTenor := 1.
Definition TENOR_6M : FloatingIndexTenor := 2.
Definition TENOR_12M : FloatingIndexTenor := 3.

Definition Currency : Type := Z.
Definition USD : Currency := 0.
Definition EUR : Currency := 1.
Definition GBP : Currency := 2.

Definition SwapType : Type := Z.
Definition STANDARD : SwapType := 0.
Definition FORWARD : SwapType := 1.
Definition IMM : SwapType := 2.
Definition MAC : SwapType := 3.
Definition BASIS : SwapType := 4.

Definition SwapLegType : Type := Z.
Definition OUTRIGHT : SwapLegType := 0.
Definition CURVE : SwapLegType := 1.
Definition FLY : SwapLegType := 2.

(** The enumerators of each enumeration, in declaration order. *)
Definition DayCountConvention_enumerators : list DayCountConvention :=
  [THIRTY_THREE_SIXTY; ACT_THREE_SIXTY].
Definition PaymentFrequency_enumerators : list PaymentFrequency :=
  [QUARTERLY; SEMI_ANNUAL; ANNUAL].
Definition FloatingIndex_enumerators : list FloatingIndex :=
  [LIBOR; EURIBOR].
Definition FloatingIndexTenor_enumerators : list FloatingIndexTenor :=
  [TENOR_1M; TENOR_3M; TENOR_6M; TENOR_12M].
Definition Currency_enumerators : list Currency :=
  [USD; EUR; GBP].
Definition SwapType_enumerators : list SwapType :=
  [STANDARD; FORWARD; IMM; MAC; BASIS].
Definition SwapLegType_enumerators : list SwapLegType :=
  [OUTRIGHT; CURVE; FLY].

(** [switch (x) { case k1: return v1; ... default: return d; }] *)
Fixpoint switch {A : Type} (x : Z) (cases : list (Z * A)) (default : A) : A :=
  match cases with
  | [] => default
  | (k, v) :: rest => if x =? k then v else switch x rest default
  end.

(* ===================================================================== *)
(** ** class Product *)
(* ===================================================================== *)

Module Product.

Record t : Type := mk {
  productId : string;
  productType : ProductType
}.

Definition set_productId (this : t) (v : string) : t :=
  {| productId := v; productType := productType this |}.
Definition set_productType (this : t) (v : ProductType) : t :=
  {| productId := productId this; productType := v |}.

(** Default initialisation of the members before a constructor body runs:
    the string member becomes empty, the enumeration member keeps whatever
    the storage [raw] held. *)
Definition default_init (raw : t) : t := set_productId raw "".

(** [Product::Product(string _productId, ProductType _productType)] *)
Definition Product (raw : t) (_productId : string) (_productType : ProductType) : t :=
  let this := default_init raw in
  let this := set_productId this _productId in
  let this := set_productType this _productType in
  this.

(** [Product() = default]: the members are default initialised and nothing
    is assigned. *)
Definition Product_default (raw : t) : t := default_init raw.

(** [const string& Product::GetProductId() const] *)
Definition GetProductId : Method t string := Return productId.

(** [ProductType Product::GetProductType() const] *)
Definition GetProductType : Method t ProductType := Return productType.

End Product.

(** A member function of a base class called on an object of a derived
    class: it runs on the base sub-object, which is then put back. *)
Definition inherited {T B A : Type} (base : T -> B) (set_base : T -> B -> T)
    (m : Method B A) : Method T A :=
  fun this => let '(r, b) := m (base this) in (r, set_base this b).

(* ===================================================================== *)
(** ** class Bond *)
(* ===================================================================== *)

Module Bond.

(** The [Product] sub-object and the five data members; [productId] here is
    the member that [Bond] declares itself, next to the one of [Product]. *)
Record t : Type := mk {
  base : Product.t;
  productId : string;
  bondIdType : BondIdType;
  ticker : string;
  coupon : double;
  maturityDate : year_month_day
}.

Definition set_base (this : t) (v : Product.t) : t :=
  mk v (productId this) (bondIdType this) (ticker this) (coupon this) (maturityDate this).
Definition set_productId (this : t) (v : string) : t :=
  mk (base this) v (bondIdType this) (ticker this) (coupon this) (maturityDate this).
Definition set_bondIdType (this : t) (v : BondIdType) : t :=
  mk (base this) (productId this) v (ticker this) (coupon this) (maturityDate this).
Definition set_ticker (this : t) (v : string) : t :=
  mk (base this) (productId this) (bondIdType this) v (coupon this) (maturityDate this).
Definition set_coupon (this : t) (v : double) : t :=
  mk (base this) (productId this) (bondIdType this) (ticker this) v (maturityDate this).
Definition set_maturityDate (this : t) (v : year_month_day) : t :=
  mk (base this) (productId this) (bondIdType this) (ticker this) (coupon this) v.

(** Default initialisation of the members of [Bond]: the two strings become
    empty, the other members keep what the storage held. *)
Definition default_init (raw : t) : t := set_ticker (set_productId raw "") "".

(** [Bond::Bond(string _productId, BondIdType _bondIdType, string _ticker,
    double _coupon, year_month_day _maturityDate) : Product(_productId, BOND)] *)
Definition Bond (raw : t) (_productId : string) (_bondIdType : BondIdType)
    (_ticker : string) (_coupon : double) (_maturityDate : year_month_day) : t :=
  let this := set_base raw (Product.Product (base raw) _productId BOND) in
  let this := default_init this in
  let this := set_bondIdType this _bondIdType in
  let this := set_ticker this _ticker in
  let this := set_coupon this _coupon in
  let this := set_maturityDate this _maturityDate in
  this.

(** [Bond() = default]: the default constructor of [Product] runs on the
    base sub-object, then the members are default initialised. *)
Definition Bond_default (raw : t) : t :=
  default_init (set_base raw (Product.Product_default (base raw))).

(** The accessors inherited from [Product]. *)
Definition GetProductId : Method t string :=
  inherited base set_base Product.GetProductId.
Definition GetProductType : Method t ProductType :=
  inherited base set_base Product.GetProductType.

(** [const string& Bond::GetTicker() const] *)
Definition GetTicker : Method t string := Return ticker.

(** [double Bond::GetCoupon() const] *)
Definition GetCoupon : Method t double := Return coupon.

(** [const year_month_day& Bond::GetMaturityDate() const] *)
Definition GetMaturityDate : Method t year_month_day := Return maturityDate.

(** [BondIdType Bond::GetBondIdType() const] *)
Definition GetBondIdType : Method t BondIdType := Return bondIdType.

End Bond.

(** [ostream& operator<<(ostream& _output, const Bond& _bond)] *)
#[export] Instance insert_Bond : Inserter Bond.t :=
  fun _output _bond =>
    _output << Bond.ticker _bond << " " << Bond.coupon _bond << " "
            << result Bond.GetMaturityDate _bond.

(* ===================================================================== *)
(** ** class IRSwap *)
(* ===================================================================== *)

Module IRSwap.

(** The [Product] sub-object and the eleven data members; [termYears] is an
    [int]. *)
Record t : Type := mk {
  base : Product.t;
  fixedLegDayCountConvention : DayCountConvention;
  floatingLegDayCountConvention : DayCountConvention;
  fixedLegPaymentFrequency : PaymentFrequency;
  floatingIndex : FloatingIndex;
  floatingIndexTenor : FloatingIndexTenor;
  effectiveDate : year_month_day;
  terminationDate : year_month_day;
  currency : Currency;
  termYears : Z;
  swapType : SwapType;
  swapLegType : SwapLegType
}.

Definition set_base (this : t) (v : Product.t) : t :=
  mk v (fixedLegDayCountConvention this) (floatingLegDayCountConvention this)
    (fixedLegPaymentFrequency this) (floatingIndex this)
    (floatingIndexTenor this) (effectiveDate this) (terminationDate this)
    (currency this) (termYears this) (swapType this) (swapLegType this).
Definition set_fixedLegDayCountConvention (this : t) (v : DayCountConvention) : t :=
  mk (base this) v (floatingLegDayCountConvention this)
    (fixedLegPaymentFrequency this) (floatingIndex this)
    (floatingIndexTenor this) (effectiveDate this) (terminationDate this)
    (currency this) (termYears this) (swapType this) (swapLegType this).
Definition set_floatingLegDayCountConvention (this : t) (v : DayCountConvention) : t :=
  mk (base this) (fixedLegDayCountConvention this) v
    (fixedLegPaymentFrequency this) (floatingIndex this)
    (floatingIndexTenor this) (effectiveDate this) (terminationDate this)
    (currency this) (termYears this) (swapType this) (swapLegType this).
Definition set_fixedLegPaymentFrequency (this : t) (v : PaymentFrequency) : t :=
  mk (base this) (fixedLegDayCountConvention this)
    (floatingLegDayCountConvention this) v (floatingIndex this)
    (floatingIndexTenor this) (effectiveDate this) (terminationDate this)
    (currency this) (termYears this) (swapType this) (swapLegType this).
Definition set_floatingIndex (this : t) (v : FloatingIndex) : t :=
  mk (base this) (fixedLegDayCountConvention this)
    (floatingLegDayCountConvention this) (fixedLegPaymentFrequency this) v
    (floatingIndexTenor this) (effectiveDate this) (terminationDate this)
    (currency this) (termYears this) (swapType this) (swapLegType this).
Definition set_floatingIndexTenor (this : t) (v : FloatingIndexTenor) : t :=
  mk (base this) (fixedLegDayCountConvention this)
    (floatingLegDayCountConvention this) (fixedLegPaymentFrequency this)
    (floatingIndex this) v (effectiveDate this) (terminationDate this)
    (currency this) (termYears this) (swapType this) (swapLegType this).
Definition set_effectiveDate (this : t) (v : year_month_day) : t :=
  mk (base this) (fixedLegDayCountConvention this)
    (floatingLegDayCountConvention this) (fixedLegPaymentFrequency this)
    (floatingIndex this) (floatingIndexTenor this) v (terminationDate this)
    (currency this) (termYears this) (swapType this) (swapLegType this).
Definition set_terminationDate (this : t) (v : year_month_day) : t :=
  mk (base this) (fixedLegDayCountConvention this)
    (floatingLegDayCountConvention this) (fixedLegPaymentFrequency this)
    (floatingIndex this) (floatingIndexTenor this) (effectiveDate this) v
    (currency this) (termYears this) (swapType this) (swapLegType this).
Definition set_currency (this : t) (v : Currency) : t :=
  mk (base this) (fixedLegDayCountConvention this)
    (floatingLegDayCountConvention this) (fixedLegPaymentFrequency this)
    (floatingIndex this) (floatingIndexTenor this) (effectiveDate this)
    (terminationDate this) v (termYears this) (swapType this)
    (swapLegType this).
Definition set_termYears (this : t) (v : Z) : t :=
  mk (base this) (fixedLegDayCountConvention this)
    (floatingLegDayCountConvention this) (fixedLegPaymentFrequency this)
    (floatingIndex this) (floatingIndexTenor this) (effectiveDate this)
    (terminationDate this) (currency this) v (swapType this)
    (swapLegType this).
Definition set_swapType (this : t) (v : SwapType) : t :=
  mk (base this) (fixedLegDayCountConvention this)
    (floatingLegDayCountConvention this) (fixedLegPaymentFrequency this)
    (floatingIndex this) (floatingIndexTenor this) (effectiveDate this)
    (terminationDate this) (currency this) (termYears this) v
    (swapLegType this).
Definition set_swapLegType (this : t) (v : SwapLegType) : t :=
  mk (base this) (fixedLegDayCountConvention this)
    (floatingLegDayCountConvention this) (fixedLegPaymentFrequency this)
    (floatingIndex this) (floatingIndexTenor this) (effectiveDate this)
    (terminationDate this) (currency this) (termYears this) (swapType this) v.

(** [IRSwap::IRSwap(string _productId, ...) : Product(_productId, IRSWAP)].
    No member of [IRSwap] is a class object, so default initialisation
    leaves every member as the storage [raw] held it; the body then assigns
    all eleven, the two dates twice. *)
Definition IRSwap (raw : t) (_productId : string)
    (_fixedLegDayCountConvention : DayCountConvention)
    (_floatingLegDayCountConvention : DayCountConvention)
    (_fixedLegPaymentFrequency : PaymentFrequency)
    (_floatingIndex : FloatingIndex)
    (_floatingIndexTenor : FloatingIndexTenor)
    (_effectiveDate : year_month_day)
    (_terminationDate : year_month_day)
    (_currency : Currency)
    (_termYears : Z)
    (_swapType : SwapType)
    (_swapLegType : SwapLegType) : t :=
  let this := set_base raw (Product.Product (base raw) _productId IRSWAP) in
  let this := set_fixedLegDayCountConvention this _fixedLegDayCountConvention in
  let this := set_floatingLegDayCountConvention this _floatingLegDayCountConvention in
  let this := set_fixedLegPaymentFrequency this _fixedLegPaymentFrequency in
  let this := set_floatingIndex this _floatingIndex in
  let this := set_floatingIndexTenor this _floatingIndexTenor in
  let this := set_effectiveDate this _effectiveDate in
  let this := set_terminationDate this _terminationDate in
  let this := set_currency this _currency in
  let this := set_termYears this _termYears in
  let this := set_swapType this _swapType in
  let this := set_swapLegType this _swapLegType in
  let this := set_effectiveDate this _effectiveDate in
  let this := set_terminationDate this _terminationDate in
  this.

(** [IRSwap() = default]: the default constructor of [Product] runs on
    the base sub-object; the members of [IRSwap] stay as the storage held
    them. *)
Definition IRSwap_default (raw : t) : t :=
  set_base raw (Product.Product_default (base raw)).

(** The accessors inherited from [Product]. *)
Definition GetProductId : Method t string :=
  inherited base set_base Product.GetProductId.
Definition GetProductType : Method t ProductType :=
  inherited base set_base Product.GetProductType.

(** The eleven accessors of [IRSwap], each [return <member>;]. *)
Definition GetFixedLegDayCountConvention : Method t DayCountConvention :=
  Return fixedLegDayCountConvention.
Definition GetFloatingLegDayCountConvention : Method t DayCountConvention :=
  Return floatingLegDayCountConvention.
Definition GetFixedLegPaymentFrequency : Method t PaymentFrequency :=
  Return fixedLegPaymentFrequency.
Definition GetFloatingIndex : Method t FloatingIndex :=
  Return floatingIndex.
Definition GetFloatingIndexTenor : Method t FloatingIndexTenor :=
  Return floatingIndexTenor.
Definition GetEffectiveDate : Method t year_month_day :=
  Return effectiveDate.
Definition GetTerminationDate : Method t year_month_day :=
  Return terminationDate.
Definition GetCurrency : Method t Currency :=
  Return currency.
Definition GetTermYears : Method t Z :=
  Return termYears.
Definition GetSwapType : Method t SwapType :=
  Return swapType.
Definition GetSwapLegType : Method t SwapLegType :=
  Return swapLegType.

(** The seven overloads of [IRSwap::ToString], one per enumeration. None
    reads a member of the object. *)
Definition ToString_DayCountConvention
    (dayCountConvention : DayCountConvention) : string :=
  switch dayCountConvention
    [ (THIRTY_THREE_SIXTY, "30/360");
      (ACT_THREE_SIXTY, "Act/360") ]
    "".

Definition ToString_PaymentFrequency
    (paymentFrequency : PaymentFrequency) : string :=
  switch paymentFrequency
    [ (QUARTERLY, "Quarterly");
      (SEMI_ANNUAL, "Semi-Annual");
      (ANNUAL, "Annual") ]
    "".

Definition ToString_FloatingIndex (floatingIndex : FloatingIndex) : string :=
  switch floatingIndex
    [ (LIBOR, "LIBOR");
      (EURIBOR, "EURIBOR") ]
    "".

Definition ToString_FloatingIndexTenor
    (floatingIndexTenor : FloatingIndexTenor) : string :=
  switch floatingIndexTenor
    [ (TENOR_1M, "1m");
      (TENOR_3M, "3m");
      (TENOR_6M, "6m");
      (TENOR_12M, "12m") ]
    "".

Definition ToString_Currency (currency : Currency) : string :=
  switch currency
    [ (USD, "USD");
      (EUR, "EUR");
      (GBP, "GBP") ]
    "".

Definition ToString_SwapType (swapType : SwapType) : string :=
  switch swapType
    [ (STANDARD, "Standard");
      (FORWARD, "Forward");
      (IMM, "IMM");
      (MAC, "MAC");
      (BASIS, "Basis") ]
    "".

Definition ToString_SwapLegType (swapLegType : SwapLegType) : string :=
  switch swapLegType
    [ (OUTRIGHT, "Outright");
      (CURVE, "Curve");
      (FLY, "Fly") ]
    "".

End IRSwap.

(** [ostream& operator<<(ostream& _output, const IRSwap& _swap)] *)
#[export] Instance insert_IRSwap : Inserter IRSwap.t :=
  fun _output _swap =>
    _output
      << "fixedDayCount:"
      << IRSwap.ToString_DayCountConvention
           (result IRSwap.GetFixedLegDayCountConvention _swap)
      << " floatingDayCount:"
      << IRSwap.ToString_DayCountConvention
           (result IRSwap.GetFloatingLegDayCountConvention _swap)
      << " paymentFreq:"
      << IRSwap.ToString_PaymentFrequency
           (result IRSwap.GetFixedLegPaymentFrequency _swap)
      << " "
      << IRSwap.ToString_FloatingIndexTenor
           (result IRSwap.GetFloatingIndexTenor _swap)
      << IRSwap.ToString_FloatingIndex (result IRSwap.GetFloatingIndex _swap)
      << " effective:"
      << result IRSwap.GetEffectiveDate _swap
      << " termination:"
      << result IRSwap.GetTerminationDate _swap
      << " "
      << IRSwap.ToString_Currency (result IRSwap.GetCurrency _swap)
      << " "
      << result IRSwap.GetTermYears _swap
      << "yrs "
      << IRSwap.ToString_SwapType (result IRSwap.GetSwapType _swap)
      << " "
      << IRSwap.ToString_SwapLegType (result IRSwap.GetSwapLegType _swap).

(* ===================================================================== *)
(** ** Text forms and sample objects used in the statements *)
(* ===================================================================== *)

(** A number below 100 written with two digits, a leading zero if need be;
    longer numbers are written in full. *)
Definition two_digits (n : N) : string :=
  replicate (2 - String.length (dec_unsigned n)) "0"%char ++ dec_unsigned n.

(** The text of a date: the year in plain decimal, then month and day with
    two digits each, joined by hyphens. *)
Definition date_text (d : year_month_day) : string :=
  dec_int (year d) ++ "-" ++ two_digits (month d) ++ "-" ++ two_digits (day d).

(** The line [<ticker> <coupon> <maturityDate>]. *)
Definition Bond_text (b : Bond.t) : string :=
  Bond.ticker b ++ " " ++ dec_double (Bond.coupon b) ++ " "
    ++ date_text (Bond.maturityDate b).

(** The line of a swap: labelled fields in fixed order. *)
Definition IRSwap_text (w : IRSwap.t) : string :=
  "fixedDayCount:"
    ++ IRSwap.ToString_DayCountConvention (IRSwap.fixedLegDayCountConvention w)
    ++ " floatingDayCount:"
    ++ IRSwap.ToString_DayCountConvention (IRSwap.floatingLegDayCountConvention w)
    ++ " paymentFreq:"
    ++ IRSwap.ToString_PaymentFrequency (IRSwap.fixedLegPaymentFrequency w)
    ++ " "
    ++ IRSwap.ToString_FloatingIndexTenor (IRSwap.floatingIndexTenor w)
    ++ IRSwap.ToString_FloatingIndex (IRSwap.floatingIndex w)
    ++ " effective:"
    ++ date_text (IRSwap.effectiveDate w)
    ++ " termination:"
    ++ date_text (IRSwap.terminationDate w)
    ++ " "
    ++ IRSwap.ToString_Currency (IRSwap.currency w)
    ++ " "
    ++ dec_int (IRSwap.termYears w)
    ++ "yrs "
    ++ IRSwap.ToString_SwapType (IRSwap.swapType w)
    ++ " "
    ++ IRSwap.ToString_SwapLegType (IRSwap.swapLegType w).

(** A string of exactly [n] decimal digits. *)
Definition is_digits (n : nat) (s : string) : bool :=
  (String.length s =? n)%nat && forallb is_digit (list_ascii_of_string s).

(** The coupon 4.25, that is 17/4. *)
Definition coupon_4_25 : double := d_finite false 17 (-2).

(** Storage filled with zero bytes. *)
Definition zeroed_Product : Product.t := Product.mk "" 0.
Definition zeroed_Bond : Bond.t :=
  Bond.mk zeroed_Product "" 0 "" (d_zero false) (mkDate 0 0 0).
Definition zeroed_IRSwap : IRSwap.t :=
  IRSwap.mk zeroed_Product 0 0 0 0 0 (mkDate 0 0 0) (mkDate 0 0 0) 0 0 0 0.

(** Value initialisation, [Bond()] or [IRSwap()] as an expression and what
    [std::map::operator[]] does for a new key: the storage is zeroed, then
    the default constructor runs. *)
Definition value_initialized_Bond : Bond.t := Bond.Bond_default zeroed_Bond.
Definition value_initialized_IRSwap : IRSwap.t :=
  IRSwap.IRSwap_default zeroed_IRSwap.

(** Occurrences of a character in a text, and texts all of whose characters
    pass a test. *)
Fixpoint count_char (c : ascii) (s : string) : nat :=
  match s with
  | "" => 0
  | String x r => (if Ascii.eqb x c then 1 else 0) + count_char c r
  end.

Fixpoint forall_chars (P : ascii -> bool) (s : string) : bool :=
  match s with
  | "" => true
  | String x r => P x && forall_chars P r
  end.

Definition newline : ascii := "010"%char.

(** Neither a space nor a line feed. *)
Definition is_graphic (c : ascii) : bool :=
  negb (Ascii.eqb c " ") && negb (Ascii.eqb c newline).

(** The values the members of a [year_month_day] can hold: the year is
    kept in a [short], month and day in an [unsigned char] each. *)
Definition storable (d : year_month_day) : Prop :=
  -32767 <= year d <= 32767 /\ (month d <= 255)%N /\ (day d <= 255)%N.

(** Reading back the text of a date: the year up to the hyphen that ends
    it, then month and day. Used to show that the text determines the
    date. *)
Fixpoint split_at_hyphen (s : string) : string * string :=
  match s with
  | "" => ("", "")
  | String c r =>
      if is_hyphen c then ("", r)
      else let '(a, b) := split_at_hyphen r in (String c a, b)
  end.

Definition read_unsigned (s : string) : option N :=
  option_map N.of_uint (NilZero.uint_of_string s).

Definition read_int (s : string) : option Z :=
  option_map Z.of_int (NilZero.int_of_string s).

Definition read_date (s : string) : option year_month_day :=
  let '(sign, body) :=
    match s with
    | String c r => if is_hyphen c then ("-", r) else ("", s)
    | "" => ("", s)
    end in
  let '(y, rest) := split_at_hyphen body in
  let '(m, d) := split_at_hyphen rest in
  match read_int (sign ++ y), read_unsigned m, read_unsigned d with
  | Some y, Some m, Some d => Some (mkDate y m d)
  | _, _, _ => None
  end.

(** The [n] integers from [lo] upwards. *)
Fixpoint zrange (n : nat) (lo : Z) : list Z :=
  match n with
  | O => []
  | S k => lo :: zrange k (lo + 1)
  end.

(** The fields of the two lines, in order. *)
Definition Bond_fields (b : Bond.t) : list string :=
  [ Bond.ticker b;
    dec_double (Bond.coupon b);
    date_text (Bond.maturityDate b) ].

Definition IRSwap_fields (w : IRSwap.t) : list string :=
  [ "fixedDayCount:"
      ++ IRSwap.ToString_DayCountConvention (IRSwap.fixedLegDayCountConvention w);
    "floatingDayCount:"
      ++ IRSwap.ToString_DayCountConvention
           (IRSwap.floatingLegDayCountConvention w);
    "paymentFreq:"
      ++ IRSwap.ToString_PaymentFrequency (IRSwap.fixedLegPaymentFrequency w);
    IRSwap.ToString_FloatingIndexTenor (IRSwap.floatingIndexTenor w)
      ++ IRSwap.ToString_FloatingIndex (IRSwap.floatingIndex w);
    "effective:" ++ date_text (IRSwap.effectiveDate w);
    "termination:" ++ date_text (IRSwap.terminationDate w);
    IRSwap.ToString_Currency (IRSwap.currency w);
    dec_int (IRSwap.termYears w) ++ "yrs";
    IRSwap.ToString_SwapType (IRSwap.swapType w);
    IRSwap.ToString_SwapLegType (IRSwap.swapLegType w) ].

(** A swap whose eight members of an enumeration type hold enumerators. *)
Definition enumerators_only (w : IRSwap.t) : Prop :=
  In (IRSwap.fixedLegDayCountConvention w) DayCountConvention_enumerators
  /\ In (IRSwap.floatingLegDayCountConvention w) DayCountConvention_enumerators
  /\ In (IRSwap.fixedLegPaymentFrequency w) PaymentFrequency_enumerators
  /\ In (IRSwap.floatingIndex w) FloatingIndex_enumerators
  /\ In (IRSwap.floatingIndexTenor w) FloatingIndexTenor_enumerators
  /\ In (IRSwap.currency w) Currency_enumerators
  /\ In (IRSwap.swapType w) SwapType_enumerators
  /\ In (IRSwap.swapLegType w) SwapLegType_enumerators.

(** Sample objects, built by the constructors on zeroed storage. *)
Definition sample_swap : IRSwap.t :=
  IRSwap.IRSwap zeroed_IRSwap "swap-1" ACT_THREE_SIXTY THIRTY_THREE_SIXTY
    ANNUAL EURIBOR TENOR_6M (mkDate 2025 2 28) (mkDate 2030 2 28) EUR 5
    FORWARD CURVE.

Definition sample_bond : Bond.t :=
  Bond.Bond zeroed_Bond "912828YK0" CUSIP "T" coupon_4_25 (mkDate 2030 6 15).

Definition bond_maturing_in_800 : Bond.t :=
  Bond.Bond zeroed_Bond "id" CUSIP "T" coupon_4_25 (mkDate 800 1 1).

(** The samples again under another identifier, the bond also under the
    other identifier scheme. *)
Definition sample_swap_renamed : IRSwap.t :=
  IRSwap.IRSwap zeroed_IRSwap "swap-2" ACT_THREE_SIXTY THIRTY_THREE_SIXTY
    ANNUAL EURIBOR TENOR_6M (mkDate 2025 2 28) (mkDate 2030 2 28) EUR 5
    FORWARD CURVE.

Definition sample_bond_renamed : Bond.t :=
  Bond.Bond zeroed_Bond "US912828YK05" ISIN "T" coupon_4_25 (mkDate 2030 6 15).

(** The stream as the renderers have it when they reach a date: [Bond]
    just before its maturity date, [IRSwap] just before its effective and
    its termination date; and the rest of the swap's line. *)
Definition Bond_before_maturity (os : ostream) (b : Bond.t) : ostream :=
  os << Bond.ticker b << " " << Bond.coupon b << " ".

Definition IRSwap_before_effective (os : ostream) (w : IRSwap.t) : ostream :=
  os << "fixedDayCount:"
     << IRSwap.ToString_DayCountConvention
          (result IRSwap.GetFixedLegDayCountConvention w)
     << " floatingDayCount:"
     << IRSwap.ToString_DayCountConvention
          (result IRSwap.GetFloatingLegDayCountConvention w)
     << " paymentFreq:"
     << IRSwap.ToString_PaymentFrequency
          (result IRSwap.GetFixedLegPaymentFrequency w)
     << " "
     << IRSwap.ToString_FloatingIndexTenor
          (result IRSwap.GetFloatingIndexTenor w)
     << IRSwap.ToString_FloatingIndex (result IRSwap.GetFloatingIndex w)
     << " effective:".

Definition IRSwap_before_termination (os : ostream) (w : IRSwap.t) : ostream :=
  IRSwap_before_effective os w
     << result IRSwap.GetEffectiveDate w << " termination:".

Definition IRSwap_after_termination (os : ostream) (w : IRSwap.t) : ostream :=
  os << " "
     << IRSwap.ToString_Currency (result IRSwap.GetCurrency w)
     << " "
     << result IRSwap.GetTermYears w
     << "yrs "
     << IRSwap.ToString_SwapType (result IRSwap.GetSwapType w)
     << " "
     << IRSwap.ToString_SwapLegType (result IRSwap.GetSwapLegType w).

(* ===================================================================== *)
(** ** Strings and streams: basic facts *)
(* ===================================================================== *)

Lemma append_assoc (a b c : string) : (a ++ b) ++ c = a ++ (b ++ c).
Proof.
  induction a as [|x a IH]; simpl; [reflexivity | now rewrite IH].
Qed.

Lemma pad_width_0 (os : ostream) (s : string) :
  width os = 0%nat -> pad os s = s.
Proof.
  intros H. unfold pad. rewrite H. reflexivity.
Qed.

Lemma write_field_width_0 (os : ostream) (s : string) :
  width os = 0%nat ->
  write_field os s = {| buf := buf os ++ s; width := 0; fill := fill os |}.
Proof.
  intros H. unfold write_field. now rewrite pad_width_0.
Qed.

Lemma write_field_0 (b : string) (f : ascii) (s : string) :
  write_field {| buf := b; width := 0; fill := f |} s
  = {| buf := b ++ s; width := 0; fill := f |}.
Proof. reflexivity. Qed.

(** The date inserter on a stream of width 0: the text is [date_text], and
    the stream is left with width 0 and fill character ["0"]. *)
Lemma insert_date (os : ostream) (d : year_month_day) :
  width os = 0%nat ->
  os << d = {| buf := buf os ++ date_text d; width := 0; fill := "0"%char |}.
Proof.
  intros H. destruct os as [b w f]. simpl in H. subst w.
  unfold insert, insert_year_month_day, date_text, two_digits.
  unfold insert, insert_int, insert_char, insert_manip, insert_unsigned.
  unfold write_field, apply_manip, pad. simpl.
  repeat rewrite append_assoc. reflexivity.
Qed.

(** *** Digits of years, months and days *)

Lemma four_digit_years_table :
  forallb (fun k => is_digits 4 (dec_int (1000 + Z.of_nat k))) (seq 0 (Z.to_nat 9000)) = true.
Proof. vm_compute. reflexivity. Qed.

Lemma dec_int_four_digits (y : Z) :
  1000 <= y <= 9999 -> is_digits 4 (dec_int y) = true.
Proof.
  intros Hy.
  pose proof four_digit_years_table as T.
  rewrite forallb_forall in T.
  specialize (T (Z.to_nat (y - 1000))).
  replace (1000 + Z.of_nat (Z.to_nat (y - 1000))) with y in T by lia.
  apply T. apply in_seq. lia.
Qed.

Lemma two_digits_table :
  forallb (fun k => is_digits 2 (two_digits (N.of_nat k))) (seq 0 100) = true.
Proof. vm_compute. reflexivity. Qed.

Lemma two_digits_form (n : N) :
  (n < 100)%N -> is_digits 2 (two_digits n) = true.
Proof.
  intros Hn.
  pose proof two_digits_table as T.
  rewrite forallb_forall in T.
  specialize (T (N.to_nat n)).
  rewrite N2Nat.id in T.
  apply T. apply in_seq. lia.
Qed.

Lemma is_digits_2_inv (s : string) :
  is_digits 2 s = true ->
  exists a b, s = String a (String b "") /\ is_digit a = true /\ is_digit b = true.
Proof.
  unfold is_digits.
  destruct s as [|a [|b [|c s]]]; simpl; try discriminate.
  intros H. exists a, b.
  destruct (is_digit a), (is_digit b); try discriminate. auto.
Qed.

Lemma is_digits_4_inv (s : string) :
  is_digits 4 s = true ->
  exists a b c d, s = String a (String b (String c (String d "")))
    /\ is_digit a = true /\ is_digit b = true
    /\ is_digit c = true /\ is_digit d = true.
Proof.
  unfold is_digits.
  destruct s as [|a [|b [|c [|d [|e s]]]]]; simpl; try discriminate.
  intros H. exists a, b, c, d.
  destruct (is_digit a), (is_digit b), (is_digit c), (is_digit d);
    try discriminate. auto.
Qed.

(** With a four-digit year and month and day below 100, the text of a date
    has the form [YYYY-MM-DD]. *)
Lemma date_text_form (d : year_month_day) :
  1000 <= year d <= 9999 -> (month d < 100)%N -> (day d < 100)%N ->
  is_YYYY_MM_DD (date_text d) = true.
Proof.
  intros Hy Hm Hd. unfold date_text.
  destruct (is_digits_4_inv _ (dec_int_four_digits _ Hy))
    as (y1 & y2 & y3 & y4 & -> & Hy1 & Hy2 & Hy3 & Hy4).
  destruct (is_digits_2_inv _ (two_digits_form _ Hm)) as (m1 & m2 & -> & Hm1 & Hm2).
  destruct (is_digits_2_inv _ (two_digits_form _ Hd)) as (d1 & d2 & -> & Hd1 & Hd2).
  unfold is_YYYY_MM_DD. simpl.
  rewrite Hy1, Hy2, Hy3, Hy4, Hm1, Hm2, Hd1, Hd2. reflexivity.
Qed.

(** A valid calendar date has month and day below 100. *)
Lemma ok_month_day (d : year_month_day) :
  ok d = true -> (month d < 100)%N /\ (day d < 100)%N.
Proof.
  unfold ok. rewrite !andb_true_iff.
  intros [[[[[_ _] _] Hm] _] Hd].
  apply N.leb_le in Hm. apply N.leb_le in Hd.
  assert (days_in_month (year d) (month d) <= 31)%N.
  { unfold days_in_month.
    destruct (month d) as [|[[[[p|p|]|[p|p|]|]|[[p|p|]|[p|p|]|]|]|[[[p|p|]|[p|p|]|]|[[p|p|]|[p|p|]|]|]|]];
      try destruct (is_leap (year d)); lia. }
  lia.
Qed.

(** A valid date with a four-digit year is written in the form
    [YYYY-MM-DD]. *)
Lemma valid_date_text_form (d : year_month_day) :
  ok d = true -> 1000 <= year d <= 9999 ->
  is_YYYY_MM_DD (date_text d) = true.
Proof.
  intros Hok Hy. destruct (ok_month_day d Hok) as [Hm Hd].
  now apply date_text_form.
Qed.

(** *** The default notation of floating point numbers: samples *)

Example dec_double_4_25 : dec_double coupon_4_25 = "4.25".
Proof. reflexivity. Qed.

(** 0.1 as a [double] is 3602879701896397 / 2^55; six significant digits
    give back [0.1]. *)
Example dec_double_tenth : dec_double (d_finite false 3602879701896397 (-55)) = "0.1".
Proof. vm_compute. reflexivity. Qed.

(** Six significant digits only: 1234567 is written in scientific
    notation. *)
Example dec_double_1234567 : dec_double (d_finite false 1234567 0) = "1.23457e+06".
Proof. vm_compute. reflexivity. Qed.

Example dec_double_minus_half : dec_double (d_finite true 1 (-1)) = "-0.5".
Proof. vm_compute. reflexivity. Qed.

(** *** The renderers on a stream of width 0 *)

Ltac unfold_inserters :=
  unfold insert, insert_string, insert_char, insert_int, insert_unsigned,
    insert_double, insert_manip.

Lemma width_Bond_before_maturity (os : ostream) (b : Bond.t) :
  width (Bond_before_maturity os b) = 0%nat.
Proof. reflexivity. Qed.

Lemma width_IRSwap_before_effective (os : ostream) (w : IRSwap.t) :
  width (IRSwap_before_effective os w) = 0%nat.
Proof. reflexivity. Qed.

Lemma width_IRSwap_before_termination (os : ostream) (w : IRSwap.t) :
  width (IRSwap_before_termination os w) = 0%nat.
Proof. reflexivity. Qed.

Lemma insert_Bond_unfold (os : ostream) (b : Bond.t) :
  os << b = Bond_before_maturity os b << Bond.maturityDate b.
Proof. reflexivity. Qed.

Lemma insert_IRSwap_unfold (os : ostream) (w : IRSwap.t) :
  os << w =
  IRSwap_after_termination
    (IRSwap_before_termination os w << IRSwap.terminationDate w) w.
Proof. reflexivity. Qed.

Lemma IRSwap_before_termination_unfold (os : ostream) (w : IRSwap.t) :
  IRSwap_before_termination os w =
  IRSwap_before_effective os w << IRSwap.effectiveDate w << " termination:".
Proof. reflexivity. Qed.

(** The whole effect of the [Bond] inserter: the line is appended, the
    width stays 0 and the fill character is left at ["0"]. *)
Lemma insert_Bond_spec (os : ostream) (b : Bond.t) :
  width os = 0%nat ->
  os << b = {| buf := buf os ++ Bond_text b; width := 0; fill := "0"%char |}.
Proof.
  intros H. rewrite insert_Bond_unfold.
  rewrite insert_date by apply width_Bond_before_maturity.
  destruct os as [t w f]. cbn [width] in H. subst w.
  unfold Bond_before_maturity, Bond_text. unfold_inserters.
  rewrite !write_field_0. cbn [buf].
  repeat rewrite append_assoc. reflexivity.
Qed.

(** The whole effect of the [IRSwap] inserter. *)
Lemma insert_IRSwap_spec (os : ostream) (w : IRSwap.t) :
  width os = 0%nat ->
  os << w = {| buf := buf os ++ IRSwap_text w; width := 0; fill := "0"%char |}.
Proof.
  intros H. rewrite insert_IRSwap_unfold, IRSwap_before_termination_unfold.
  rewrite (insert_date (IRSwap_before_effective os w))
    by apply width_IRSwap_before_effective.
  rewrite insert_date by reflexivity.
  destruct os as [t wd f]. cbn [width] in H. subst wd.
  unfold IRSwap_after_termination, IRSwap_before_effective, IRSwap_text.
  unfold_inserters.
  rewrite !write_field_0. cbn [buf].
  repeat rewrite append_assoc. reflexivity.
Qed.

(** *** [switch] *)

Lemma switch_default {A : Type} (x : Z) (cases : list (Z * A)) (d : A) :
  ~ In x (map fst cases) -> switch x cases d = d.
Proof.
  induction cases as [|[k v] rest IH]; simpl; intros H; [reflexivity|].
  destruct (Z.eqb_spec x k) as [->|_].
  - exfalso. apply H. now left.
  - apply IH. intros Hin. apply H. now right.
Qed.

(** *** Accessors *)

Lemma read_only_Return {T A : Type} (e : T -> A) : read_only (Return e).
Proof. intros this. split; reflexivity. Qed.

Lemma read_only_inherited {T B A : Type} (base : T -> B)
    (set_base : T -> B -> T) (m : Method B A) :
  (forall this, set_base this (base this) = this) ->
  read_only m -> read_only (inherited base set_base m).
Proof.
  intros Heta Hm this.
  destruct (Hm (base this)) as [Hafter Hres].
  unfold after, result, inherited in *.
  destruct (m (base this)) as [r b] eqn:E. cbn [fst snd] in *. subst b.
  rewrite Heta, E. cbn [fst snd]. split; reflexivity.
Qed.

Lemma Bond_set_base_eta (this : Bond.t) :
  Bond.set_base this (Bond.base this) = this.
Proof. now destruct this. Qed.

Lemma IRSwap_set_base_eta (this : IRSwap.t) :
  IRSwap.set_base this (IRSwap.base this) = this.
Proof. now destruct this. Qed.

(* ===================================================================== *)
(** ** Construction and accessors *)
(* ===================================================================== *)

(** C1. Whatever the storage held before, and for all arguments of the
    parameterized constructors of [Bond] and [IRSwap], every accessor of the
    constructed object, [GetProductId] included, returns the argument that
    was passed for its field. *)
Theorem constructor_accessor_round_trip :
  (forall (raw : Bond.t) (_productId : string) (_bondIdType : BondIdType)
          (_ticker : string) (_coupon : double)
          (_maturityDate : year_month_day),
      let b := Bond.Bond raw _productId _bondIdType _ticker _coupon
                 _maturityDate in
      result Bond.GetProductId b = _productId
      /\ result Bond.GetBondIdType b = _bondIdType
      /\ result Bond.GetTicker b = _ticker
      /\ result Bond.GetCoupon b = _coupon
      /\ result Bond.GetMaturityDate b = _maturityDate)
  /\
  (forall (raw : IRSwap.t) (_productId : string)
          (_fixedLegDayCountConvention : DayCountConvention)
          (_floatingLegDayCountConvention : DayCountConvention)
          (_fixedLegPaymentFrequency : PaymentFrequency)
          (_floatingIndex : FloatingIndex)
          (_floatingIndexTenor : FloatingIndexTenor)
          (_effectiveDate _terminationDate : year_month_day)
          (_currency : Currency) (_termYears : Z)
          (_swapType : SwapType) (_swapLegType : SwapLegType),
      let w := IRSwap.IRSwap raw _productId _fixedLegDayCountConvention
                 _floatingLegDayCountConvention _fixedLegPaymentFrequency
                 _floatingIndex _floatingIndexTenor _effectiveDate
                 _terminationDate _currency _termYears _swapType
                 _swapLegType in
      result IRSwap.GetProductId w = _productId
      /\ result IRSwap.GetFixedLegDayCountConvention w
         = _fixedLegDayCountConvention
      /\ result IRSwap.GetFloatingLegDayCountConvention w
         = _floatingLegDayCountConvention
      /\ result IRSwap.GetFixedLegPaymentFrequency w
         = _fixedLegPaymentFrequency
      /\ result IRSwap.GetFloatingIndex w = _floatingIndex
      /\ result IRSwap.GetFloatingIndexTenor w = _floatingIndexTenor
      /\ result IRSwap.GetEffectiveDate w = _effectiveDate
      /\ result IRSwap.GetTerminationDate w = _terminationDate
      /\ result IRSwap.GetCurrency w = _currency
      /\ result IRSwap.GetTermYears w = _termYears
      /\ result IRSwap.GetSwapType w = _swapType
      /\ result IRSwap.GetSwapLegType w = _swapLegType).
Proof.
  split; intros; subst b || subst w; repeat (split; [reflexivity|]);
    reflexivity.
Qed.

(** C2. A [Bond] built by its parameterized constructor answers [BOND] to
    [GetProductType], an [IRSwap] answers [IRSWAP], whatever the other
    arguments and whatever the storage held before. *)
Theorem product_type_fixed_by_constructor :
  (forall (raw : Bond.t) (_productId : string) (_bondIdType : BondIdType)
          (_ticker : string) (_coupon : double)
          (_maturityDate : year_month_day),
      result Bond.GetProductType
        (Bond.Bond raw _productId _bondIdType _ticker _coupon _maturityDate)
      = BOND)
  /\
  (forall (raw : IRSwap.t) (_productId : string)
          (_fixedLegDayCountConvention : DayCountConvention)
          (_floatingLegDayCountConvention : DayCountConvention)
          (_fixedLegPaymentFrequency : PaymentFrequency)
          (_floatingIndex : FloatingIndex)
          (_floatingIndexTenor : FloatingIndexTenor)
          (_effectiveDate _terminationDate : year_month_day)
          (_currency : Currency) (_termYears : Z)
          (_swapType : SwapType) (_swapLegType : SwapLegType),
      result IRSwap.GetProductType
        (IRSwap.IRSwap raw _productId _fixedLegDayCountConvention
           _floatingLegDayCountConvention _fixedLegPaymentFrequency
           _floatingIndex _floatingIndexTenor _effectiveDate
           _terminationDate _currency _termYears _swapType _swapLegType)
      = IRSWAP).
Proof.
  split; intros; reflexivity.
Qed.

(** C8. Every accessor of [Product], [Bond] and [IRSwap] leaves the object
    as it was, field for field, and a second call answers what the first
    one did. *)
Theorem accessors_read_only :
  (read_only Product.GetProductId /\ read_only Product.GetProductType)
  /\
  (read_only Bond.GetProductId /\ read_only Bond.GetProductType
   /\ read_only Bond.GetTicker /\ read_only Bond.GetCoupon
   /\ read_only Bond.GetMaturityDate /\ read_only Bond.GetBondIdType)
  /\
  (read_only IRSwap.GetProductId /\ read_only IRSwap.GetProductType
   /\ read_only IRSwap.GetFixedLegDayCountConvention
   /\ read_only IRSwap.GetFloatingLegDayCountConvention
   /\ read_only IRSwap.GetFixedLegPaymentFrequency
   /\ read_only IRSwap.GetFloatingIndex
   /\ read_only IRSwap.GetFloatingIndexTenor
   /\ read_only IRSwap.GetEffectiveDate
   /\ read_only IRSwap.GetTerminationDate
   /\ read_only IRSwap.GetCurrency
   /\ read_only IRSwap.GetTermYears
   /\ read_only IRSwap.GetSwapType
   /\ read_only IRSwap.GetSwapLegType).
Proof.
  repeat split;
    first
      [ apply read_only_Return
      | apply read_only_inherited;
        [ apply Bond_set_base_eta | apply read_only_Return ]
      | apply read_only_inherited;
        [ apply IRSwap_set_base_eta | apply read_only_Return ] ].
Qed.

(* ===================================================================== *)
(** ** Labels of the enumerations *)
(* ===================================================================== *)

Ltac in_enumerators H :=
  cbv [In DayCountConvention_enumerators PaymentFrequency_enumerators
       FloatingIndex_enumerators FloatingIndexTenor_enumerators
       Currency_enumerators SwapType_enumerators SwapLegType_enumerators] in H;
  repeat (destruct H as [H|H]; [subst|]); try contradiction.

Ltac labels_injective :=
  let a := fresh "a" in let b := fresh "b" in
  let Ha := fresh "Ha" in let Hb := fresh "Hb" in let E := fresh "E" in
  intros a b Ha Hb E;
  in_enumerators Ha; in_enumerators Hb;
  first [ reflexivity | vm_compute in E; discriminate E ].

(** C6. Each of the seven [ToString] overloads maps every enumerator of its
    enumeration to the label of the table, and no two enumerators of one
    enumeration get the same label. *)
Theorem enum_labels :
  (IRSwap.ToString_DayCountConvention THIRTY_THREE_SIXTY = "30/360"
   /\ IRSwap.ToString_DayCountConvention ACT_THREE_SIXTY = "Act/360"
   /\ forall a b, In a DayCountConvention_enumerators ->
        In b DayCountConvention_enumerators ->
        IRSwap.ToString_DayCountConvention a
        = IRSwap.ToString_DayCountConvention b -> a = b)
  /\
  (IRSwap.ToString_PaymentFrequency QUARTERLY = "Quarterly"
   /\ IRSwap.ToString_PaymentFrequency SEMI_ANNUAL = "Semi-Annual"
   /\ IRSwap.ToString_PaymentFrequency ANNUAL = "Annual"
   /\ forall a b, In a PaymentFrequency_enumerators ->
        In b PaymentFrequency_enumerators ->
        IRSwap.ToString_PaymentFrequency a
        = IRSwap.ToString_PaymentFrequency b -> a = b)
  /\
  (IRSwap.ToString_FloatingIndex LIBOR = "LIBOR"
   /\ IRSwap.ToString_FloatingIndex EURIBOR = "EURIBOR"
   /\ forall a b, In a FloatingIndex_enumerators ->
        In b FloatingIndex_enumerators ->
        IRSwap.ToString_FloatingIndex a
        = IRSwap.ToString_FloatingIndex b -> a = b)
  /\
  (IRSwap.ToString_FloatingIndexTenor TENOR_1M = "1m"
   /\ IRSwap.ToString_FloatingIndexTenor TENOR_3M = "3m"
   /\ IRSwap.ToString_FloatingIndexTenor TENOR_6M = "6m"
   /\ IRSwap.ToString_FloatingIndexTenor TENOR_12M = "12m"
   /\ forall a b, In a FloatingIndexTenor_enumerators ->
        In b FloatingIndexTenor_enumerators ->
        IRSwap.ToString_FloatingIndexTenor a
        = IRSwap.ToString_FloatingIndexTenor b -> a = b)
  /\
  (IRSwap.ToString_Currency USD = "USD"
   /\ IRSwap.ToString_Currency EUR = "EUR"
   /\ IRSwap.ToString_Currency GBP = "GBP"
   /\ forall a b, In a Currency_enumerators ->
        In b Currency_enumerators ->
        IRSwap.ToString_Currency a = IRSwap.ToString_Currency b -> a = b)
  /\
  (IRSwap.ToString_SwapType STANDARD = "Standard"
   /\ IRSwap.ToString_SwapType FORWARD = "Forward"
   /\ IRSwap.ToString_SwapType IMM = "IMM"
   /\ IRSwap.ToString_SwapType MAC = "MAC"
   /\ IRSwap.ToString_SwapType BASIS = "Basis"
   /\ forall a b, In a SwapType_enumerators ->
        In b SwapType_enumerators ->
        IRSwap.ToString_SwapType a = IRSwap.ToString_SwapType b -> a = b)
  /\
  (IRSwap.ToString_SwapLegType OUTRIGHT = "Outright"
   /\ IRSwap.ToString_SwapLegType CURVE = "Curve"
   /\ IRSwap.ToString_SwapLegType FLY = "Fly"
   /\ forall a b, In a SwapLegType_enumerators ->
        In b SwapLegType_enumerators ->
        IRSwap.ToString_SwapLegType a
        = IRSwap.ToString_SwapLegType b -> a = b).
Proof.
  repeat match goal with
         | |- _ /\ _ => split
         | |- _ = _ => reflexivity
         end; labels_injective.
Qed.

(** One instance of the injectivity part for each enumeration. *)
Lemma enum_labels_witness :
  (In ACT_THREE_SIXTY DayCountConvention_enumerators
   /\ ACT_THREE_SIXTY = ACT_THREE_SIXTY)
  /\ (In SEMI_ANNUAL PaymentFrequency_enumerators
      /\ SEMI_ANNUAL = SEMI_ANNUAL)
  /\ (In EURIBOR FloatingIndex_enumerators /\ EURIBOR = EURIBOR)
  /\ (In TENOR_12M FloatingIndexTenor_enumerators /\ TENOR_12M = TENOR_12M)
  /\ (In GBP Currency_enumerators /\ GBP = GBP)
  /\ (In MAC SwapType_enumerators /\ MAC = MAC)
  /\ (In FLY SwapLegType_enumerators /\ FLY = FLY).
Proof.
  destruct enum_labels
    as ((_ & _ & H1) & (_ & _ & _ & H2) & (_ & _ & H3) & (_ & _ & _ & _ & H4)
        & (_ & _ & _ & H5) & (_ & _ & _ & _ & _ & H6) & (_ & _ & _ & H7)).
  assert (I1 : In ACT_THREE_SIXTY DayCountConvention_enumerators)
    by (simpl; auto).
  assert (I2 : In SEMI_ANNUAL PaymentFrequency_enumerators)
    by (simpl; auto).
  assert (I3 : In EURIBOR FloatingIndex_enumerators) by (simpl; auto).
  assert (I4 : In TENOR_12M FloatingIndexTenor_enumerators)
    by (simpl; auto 6).
  assert (I5 : In GBP Currency_enumerators) by (simpl; auto).
  assert (I6 : In MAC SwapType_enumerators) by (simpl; auto 6).
  assert (I7 : In FLY SwapLegType_enumerators) by (simpl; auto).
  exact (conj (conj I1 (H1 _ _ I1 I1 eq_refl))
        (conj (conj I2 (H2 _ _ I2 I2 eq_refl))
        (conj (conj I3 (H3 _ _ I3 I3 eq_refl))
        (conj (conj I4 (H4 _ _ I4 I4 eq_refl))
        (conj (conj I5 (H5 _ _ I5 I5 eq_refl))
        (conj (conj I6 (H6 _ _ I6 I6 eq_refl))
              (conj I7 (H7 _ _ I7 I7 eq_refl)))))))).
Defined.

(** C7. A value that is none of the enumerators of its enumeration gets the
    empty label from the [ToString] overload of that enumeration; the
    overload returns normally. *)
Theorem label_outside_enumerators_is_empty :
  forall z : Z,
    (~ In z DayCountConvention_enumerators ->
       IRSwap.ToString_DayCountConvention z = "")
    /\ (~ In z PaymentFrequency_enumerators ->
          IRSwap.ToString_PaymentFrequency z = "")
    /\ (~ In z FloatingIndex_enumerators ->
          IRSwap.ToString_FloatingIndex z = "")
    /\ (~ In z FloatingIndexTenor_enumerators ->
          IRSwap.ToString_FloatingIndexTenor z = "")
    /\ (~ In z Currency_enumerators ->
          IRSwap.ToString_Currency z = "")
    /\ (~ In z SwapType_enumerators ->
          IRSwap.ToString_SwapType z = "")
    /\ (~ In z SwapLegType_enumerators ->
          IRSwap.ToString_SwapLegType z = "").
Proof.
  intros z. repeat split; intros H; apply switch_default; exact H.
Qed.

(** The values 5 and -1 belong to no enumeration: all seven labels are
    empty there. *)
Lemma label_outside_enumerators_is_empty_witness :
  (IRSwap.ToString_DayCountConvention 5 = ""
   /\ IRSwap.ToString_PaymentFrequency 5 = ""
   /\ IRSwap.ToString_FloatingIndex 5 = ""
   /\ IRSwap.ToString_FloatingIndexTenor 5 = ""
   /\ IRSwap.ToString_Currency 5 = ""
   /\ IRSwap.ToString_SwapType 5 = ""
   /\ IRSwap.ToString_SwapLegType 5 = "")
  /\ IRSwap.ToString_SwapType (-1) = "".
Proof.
  destruct (label_outside_enumerators_is_empty 5)
    as (H1 & H2 & H3 & H4 & H5 & H6 & H7).
  destruct (label_outside_enumerators_is_empty (-1))
    as (_ & _ & _ & _ & _ & H6' & _).
  repeat match goal with |- _ /\ _ => split end;
    [ apply H1 | apply H2 | apply H3 | apply H4 | apply H5 | apply H6
    | apply H7 | apply H6' ];
    cbv; lia.
Defined.

(* ===================================================================== *)
(** ** Rendering *)
(* ===================================================================== *)

(** C5, counterexample. The first of January of the year 800 is a valid
    calendar date; its text is [800-01-01], nine characters, which is not of
    the form [YYYY-MM-DD]. *)
Lemma date_rendering_year_800 :
  ok (mkDate 800 1 1) = true
  /\ str (ostringstream << mkDate 800 1 1) = "800-01-01"
  /\ is_YYYY_MM_DD (str (ostringstream << mkDate 800 1 1)) = false.
Proof. repeat split; vm_compute; reflexivity. Qed.

(** C5, amended. On a stream of width 0 the date inserter appends the year
    in plain decimal, a hyphen, the month with two digits, a hyphen and the
    day with two digits. For a year from 1000 to 9999 and month and day
    below 100, as they are in every valid date, this text has the form
    [YYYY-MM-DD]. The dates (2024, 3, 7) and (1999, 11, 23) are written
    [2024-03-07] and [1999-11-23]. *)
Theorem date_rendering :
  (forall (os : ostream) (d : year_month_day),
      width os = 0%nat ->
      buf (os << d)
      = buf os ++ dec_int (year d) ++ "-" ++ two_digits (month d)
               ++ "-" ++ two_digits (day d))
  /\ (forall d : year_month_day,
        1000 <= year d <= 9999 -> (month d < 100)%N -> (day d < 100)%N ->
        is_YYYY_MM_DD (str (ostringstream << d)) = true)
  /\ str (ostringstream << mkDate 2024 3 7) = "2024-03-07"
  /\ str (ostringstream << mkDate 1999 11 23) = "1999-11-23".
Proof.
  split; [|split; [|split]].
  - intros os d H. rewrite insert_date by exact H. reflexivity.
  - intros d Hy Hm Hd. unfold str.
    rewrite insert_date by reflexivity. cbn [buf ostringstream append].
    now apply date_text_form.
  - vm_compute. reflexivity.
  - vm_compute. reflexivity.
Qed.

(** The amended statement at the date (2024, 3, 7) on a new stream. *)
Lemma date_rendering_witness :
  (width ostringstream = 0%nat
   /\ buf (ostringstream << mkDate 2024 3 7)
      = buf ostringstream ++ dec_int 2024 ++ "-" ++ two_digits 3
          ++ "-" ++ two_digits 7)
  /\ (1000 <= 2024 <= 9999 /\ (3 < 100)%N /\ (7 < 100)%N
      /\ is_YYYY_MM_DD (str (ostringstream << mkDate 2024 3 7)) = true).
Proof.
  destruct date_rendering as (H1 & H2 & _ & _).
  split.
  - split; [reflexivity|]. apply (H1 ostringstream (mkDate 2024 3 7)).
    reflexivity.
  - assert (Hy : 1000 <= 2024 <= 9999) by lia.
    assert (Hm : (3 < 100)%N) by lia.
    assert (Hd : (7 < 100)%N) by lia.
    exact (conj Hy (conj Hm (conj Hd (H2 (mkDate 2024 3 7) Hy Hm Hd)))).
Defined.

(** C3. On a stream of width 0 the [IRSwap] inserter appends the labelled
    fields in the fixed order with the literal separators; the swap of the
    example is written as the given line. *)
Theorem IRSwap_rendering :
  (forall (os : ostream) (w : IRSwap.t),
      width os = 0%nat ->
      buf (os << w)
      = buf os
        ++ "fixedDayCount:"
        ++ IRSwap.ToString_DayCountConvention
             (IRSwap.fixedLegDayCountConvention w)
        ++ " floatingDayCount:"
        ++ IRSwap.ToString_DayCountConvention
             (IRSwap.floatingLegDayCountConvention w)
        ++ " paymentFreq:"
        ++ IRSwap.ToString_PaymentFrequency
             (IRSwap.fixedLegPaymentFrequency w)
        ++ " "
        ++ IRSwap.ToString_FloatingIndexTenor (IRSwap.floatingIndexTenor w)
        ++ IRSwap.ToString_FloatingIndex (IRSwap.floatingIndex w)
        ++ " effective:"
        ++ date_text (IRSwap.effectiveDate w)
        ++ " termination:"
        ++ date_text (IRSwap.terminationDate w)
        ++ " "
        ++ IRSwap.ToString_Currency (IRSwap.currency w)
        ++ " "
        ++ dec_int (IRSwap.termYears w)
        ++ "yrs "
        ++ IRSwap.ToString_SwapType (IRSwap.swapType w)
        ++ " "
        ++ IRSwap.ToString_SwapLegType (IRSwap.swapLegType w))
  /\ (forall (raw : IRSwap.t) (_productId : string),
        str (ostringstream
               << IRSwap.IRSwap raw _productId THIRTY_THREE_SIXTY
                    ACT_THREE_SIXTY QUARTERLY LIBOR TENOR_3M
                    (mkDate 2024 1 1) (mkDate 2034 1 1) USD 10 STANDARD
                    OUTRIGHT)
        = "fixedDayCount:30/360 floatingDayCount:Act/360 paymentFreq:Quarterly 3mLIBOR effective:2024-01-01 termination:2034-01-01 USD 10yrs Standard Outright").
Proof.
  split.
  - intros os w H. rewrite insert_IRSwap_spec by exact H. reflexivity.
  - intros raw _productId. unfold str.
    rewrite insert_IRSwap_spec by reflexivity. vm_compute. reflexivity.
Qed.

(** The layout part of C3 for a swap built on zeroed storage, written to a
    new stream. *)
Lemma IRSwap_rendering_witness :
  width ostringstream = 0%nat
  /\ buf (ostringstream << sample_swap)
     = "fixedDayCount:Act/360 floatingDayCount:30/360 paymentFreq:Annual 6mEURIBOR effective:2025-02-28 termination:2030-02-28 EUR 5yrs Forward Curve".
Proof.
  split; [reflexivity|].
  rewrite (proj1 IRSwap_rendering ostringstream sample_swap eq_refl).
  vm_compute. reflexivity.
Defined.

(** C4, counterexample. A bond with ticker [T], coupon 4.25 and maturity
    on the first of January 800, a valid date, is written
    [T 4.25 800-01-01]: what follows the coupon is not of the form
    [YYYY-MM-DD]. *)
Lemma Bond_rendering_year_800 :
  ok (Bond.maturityDate bond_maturing_in_800) = true
  /\ str (ostringstream << bond_maturing_in_800) = "T 4.25 800-01-01"
  /\ ~ (exists D : string,
           is_YYYY_MM_DD D = true
           /\ str (ostringstream << bond_maturing_in_800)
              = Bond.ticker bond_maturing_in_800 ++ " "
                  ++ dec_double (Bond.coupon bond_maturing_in_800) ++ " "
                  ++ D).
Proof.
  split; [|split].
  - vm_compute. reflexivity.
  - vm_compute. reflexivity.
  - intros (D & HD & E).
    vm_compute in E. injection E as E. subst D.
    vm_compute in HD. discriminate HD.
Qed.

(** C4, amended. On a stream of width 0 the [Bond] inserter appends the
    ticker, a space, the coupon in the default notation of the stream, a
    space and the maturity date as the date inserter writes it. When the
    year of the maturity date is from 1000 to 9999 and month and day are
    below 100, the date part has the form [YYYY-MM-DD]. The bond with
    ticker [T], coupon 4.25 and maturity (2030, 6, 15) is written
    [T 4.25 2030-06-15]. *)
Theorem Bond_rendering :
  (forall (os : ostream) (b : Bond.t),
      width os = 0%nat ->
      buf (os << b)
      = buf os ++ Bond.ticker b ++ " " ++ dec_double (Bond.coupon b) ++ " "
          ++ date_text (Bond.maturityDate b))
  /\ (forall b : Bond.t,
        1000 <= year (Bond.maturityDate b) <= 9999 ->
        (month (Bond.maturityDate b) < 100)%N ->
        (day (Bond.maturityDate b) < 100)%N ->
        exists D : string,
          is_YYYY_MM_DD D = true
          /\ str (ostringstream << b)
             = Bond.ticker b ++ " " ++ dec_double (Bond.coupon b) ++ " " ++ D)
  /\ (forall (raw : Bond.t) (_productId : string) (_bondIdType : BondIdType),
        str (ostringstream
               << Bond.Bond raw _productId _bondIdType "T" coupon_4_25
                    (mkDate 2030 6 15))
        = "T 4.25 2030-06-15").
Proof.
  split; [|split].
  - intros os b H. rewrite insert_Bond_spec by exact H. reflexivity.
  - intros b Hy Hm Hd. exists (date_text (Bond.maturityDate b)).
    split; [now apply date_text_form|].
    unfold str. rewrite insert_Bond_spec by reflexivity. reflexivity.
  - intros raw _productId _bondIdType. unfold str.
    rewrite insert_Bond_spec by reflexivity. vm_compute. reflexivity.
Qed.

(** The amended statement for a bond built on zeroed storage, written to a
    new stream. *)
Lemma Bond_rendering_witness :
  (width ostringstream = 0%nat
   /\ buf (ostringstream << sample_bond) = "T 4.25 2030-06-15")
  /\ (1000 <= year (Bond.maturityDate sample_bond) <= 9999
      /\ (month (Bond.maturityDate sample_bond) < 100)%N
      /\ (day (Bond.maturityDate sample_bond) < 100)%N
      /\ exists D : string,
           is_YYYY_MM_DD D = true
           /\ str (ostringstream << sample_bond)
              = Bond.ticker sample_bond ++ " "
                  ++ dec_double (Bond.coupon sample_bond) ++ " " ++ D).
Proof.
  set (b := sample_bond).
  destruct Bond_rendering as (H1 & H2 & _).
  split.
  - split; [reflexivity|].
    rewrite (H1 ostringstream b eq_refl). vm_compute. reflexivity.
  - assert (Hy : 1000 <= year (Bond.maturityDate b) <= 9999)
      by (vm_compute; split; discriminate).
    assert (Hm : (month (Bond.maturityDate b) < 100)%N) by reflexivity.
    assert (Hd : (day (Bond.maturityDate b) < 100)%N) by reflexivity.
    exact (conj Hy (conj Hm (conj Hd (H2 b Hy Hm Hd)))).
Defined.

(** C9. The [Bond] inserter writes its maturity date, and the [IRSwap]
    inserter its effective and its termination date, by the date inserter;
    at each of the three places, whatever the stream was at the start, a
    date [d] adds the same text, the one the date inserter writes on a new
    stream. *)
Theorem dates_rendered_alike :
  forall (os os' : ostream) (b : Bond.t) (w : IRSwap.t),
    os << b = Bond_before_maturity os b << Bond.maturityDate b
    /\ IRSwap_before_termination os' w
       = IRSwap_before_effective os' w << IRSwap.effectiveDate w
           << " termination:"
    /\ os' << w
       = IRSwap_after_termination
           (IRSwap_before_termination os' w << IRSwap.terminationDate w) w
    /\ forall d : year_month_day,
         buf (Bond_before_maturity os b << d)
         = buf (Bond_before_maturity os b) ++ str (ostringstream << d)
         /\ buf (IRSwap_before_effective os' w << d)
            = buf (IRSwap_before_effective os' w) ++ str (ostringstream << d)
         /\ buf (IRSwap_before_termination os' w << d)
            = buf (IRSwap_before_termination os' w)
                ++ str (ostringstream << d).
Proof.
  intros os os' b w.
  split; [apply insert_Bond_unfold|].
  split; [apply IRSwap_before_termination_unfold|].
  split; [apply insert_IRSwap_unfold|].
  intros d. unfold str.
  rewrite (insert_date ostringstream) by reflexivity.
  rewrite (insert_date (Bond_before_maturity os b))
    by apply width_Bond_before_maturity.
  rewrite (insert_date (IRSwap_before_effective os' w))
    by apply width_IRSwap_before_effective.
  rewrite (insert_date (IRSwap_before_termination os' w))
    by apply width_IRSwap_before_termination.
  cbn [buf ostringstream append]. auto.
Qed.

(** C10. The written line carries neither the product identifier nor the
    identifier scheme of a bond: bonds whose constructor arguments differ in
    [_productId] and [_bondIdType] only, and swaps whose constructor
    arguments differ in [_productId] only, are written alike on every
    stream, whatever their storage held before. *)
Theorem rendering_omits_identifiers :
  (forall (os : ostream) (raw raw' : Bond.t) (_productId _productId' : string)
          (_bondIdType _bondIdType' : BondIdType) (_ticker : string)
          (_coupon : double) (_maturityDate : year_month_day),
      os << Bond.Bond raw _productId _bondIdType _ticker _coupon _maturityDate
      = os << Bond.Bond raw' _productId' _bondIdType' _ticker _coupon
                _maturityDate)
  /\
  (forall (os : ostream) (raw raw' : IRSwap.t)
          (_productId _productId' : string)
          (_fixedLegDayCountConvention : DayCountConvention)
          (_floatingLegDayCountConvention : DayCountConvention)
          (_fixedLegPaymentFrequency : PaymentFrequency)
          (_floatingIndex : FloatingIndex)
          (_floatingIndexTenor : FloatingIndexTenor)
          (_effectiveDate _terminationDate : year_month_day)
          (_currency : Currency) (_termYears : Z)
          (_swapType : SwapType) (_swapLegType : SwapLegType),
      os << IRSwap.IRSwap raw _productId _fixedLegDayCountConvention
              _floatingLegDayCountConvention _fixedLegPaymentFrequency
              _floatingIndex _floatingIndexTenor _effectiveDate
              _terminationDate _currency _termYears _swapType _swapLegType
      = os << IRSwap.IRSwap raw' _productId' _fixedLegDayCountConvention
                _floatingLegDayCountConvention _fixedLegPaymentFrequency
                _floatingIndex _floatingIndexTenor _effectiveDate
                _terminationDate _currency _termYears _swapType
                _swapLegType).
Proof.
  split; intros.
  - rewrite !insert_Bond_unfold. reflexivity.
  - rewrite !insert_IRSwap_unfold. reflexivity.
Qed.

(* ===================================================================== *)
(** ** Further properties: the inserters on any stream *)
(* ===================================================================== *)

(** The date inserter on any stream. *)
Lemma insert_date_any (os : ostream) (d : year_month_day) :
  os << d
  = {| buf := buf os
              ++ replicate (width os - String.length (dec_int (year d)))
                           (fill os)
              ++ date_text d;
       width := 0;
       fill := "0"%char |}.
Proof.
  destruct os as [b w f].
  unfold insert at 1, insert_year_month_day. unfold_inserters.
  unfold apply_manip, write_field, pad.
  cbn [buf width fill Nat.sub replicate].
  unfold date_text, two_digits.
  f_equal. repeat rewrite append_assoc. reflexivity.
Qed.

(** X1. Whatever the width and the fill character of the stream, the date
    inserter appends the text of the date behind the padding that the
    width in force asks for the year alone, made of the fill character in
    force; month and day are padded with zeros. It leaves the stream with
    width 0 and fill character ["0"]. *)
Theorem date_inserter_effect :
  forall (os : ostream) (d : year_month_day),
    os << d
    = {| buf := buf os
                ++ replicate (width os - String.length (dec_int (year d)))
                             (fill os)
                ++ date_text d;
         width := 0;
         fill := "0"%char |}.
Proof. exact insert_date_any. Qed.

Lemma write_field_padding_first (os : ostream) (s : string) :
  write_field os s
  = write_field
      {| buf := buf os ++ replicate (width os - String.length s) (fill os);
         width := 0; fill := fill os |} s.
Proof.
  unfold write_field, pad. cbn [buf width fill Nat.sub replicate append].
  now rewrite append_assoc.
Qed.

(** The [Bond] inserter on any stream. *)
Lemma insert_Bond_any (os : ostream) (b : Bond.t) :
  os << b
  = {| buf := buf os
              ++ replicate (width os - String.length (Bond.ticker b))
                           (fill os)
              ++ Bond_text b;
       width := 0;
       fill := "0"%char |}.
Proof.
  set (os0 := {| buf := buf os
                        ++ replicate
                             (width os - String.length (Bond.ticker b))
                             (fill os);
                 width := 0; fill := fill os |}).
  transitivity (os0 << b).
  - change (os << b)
      with (write_field os (Bond.ticker b) << " " << Bond.coupon b << " "
              << Bond.maturityDate b).
    rewrite (write_field_padding_first os (Bond.ticker b)). reflexivity.
  - rewrite insert_Bond_spec by reflexivity.
    subst os0. cbn [buf]. now rewrite append_assoc.
Qed.

(** The [IRSwap] inserter on any stream. *)
Lemma insert_IRSwap_any (os : ostream) (w : IRSwap.t) :
  os << w
  = {| buf := buf os
              ++ replicate (width os - String.length "fixedDayCount:")
                           (fill os)
              ++ IRSwap_text w;
       width := 0;
       fill := "0"%char |}.
Proof.
  set (os0 := {| buf := buf os
                        ++ replicate
                             (width os - String.length "fixedDayCount:")
                             (fill os);
                 width := 0; fill := fill os |}).
  transitivity (os0 << w).
  - rewrite (insert_IRSwap_unfold os), (insert_IRSwap_unfold os0).
    rewrite !IRSwap_before_termination_unfold.
    do 3 f_equal. unfold IRSwap_before_effective.
    do 9 f_equal.
    change (os << "fixedDayCount:") with (write_field os "fixedDayCount:").
    rewrite (write_field_padding_first os "fixedDayCount:"). reflexivity.
  - rewrite insert_IRSwap_spec by reflexivity.
    subst os0. cbn [buf]. now rewrite append_assoc.
Qed.

(** X2. Whatever the width and the fill character of the stream, the
    [Bond] and the [IRSwap] inserter append their line behind the padding
    that the width in force asks for the first field alone, the ticker of
    the bond and the literal "fixedDayCount:" of the swap; they leave the
    stream with width 0 and fill character ["0"]. *)
Theorem renderers_effect :
  (forall (os : ostream) (b : Bond.t),
      os << b
      = {| buf := buf os
                  ++ replicate (width os - String.length (Bond.ticker b))
                               (fill os)
                  ++ Bond_text b;
           width := 0;
           fill := "0"%char |})
  /\
  (forall (os : ostream) (w : IRSwap.t),
      os << w
      = {| buf := buf os
                  ++ replicate (width os - String.length "fixedDayCount:")
                               (fill os)
                  ++ IRSwap_text w;
           width := 0;
           fill := "0"%char |}).
Proof. split; [exact insert_Bond_any | exact insert_IRSwap_any]. Qed.

(** X3. The fill character that the inserters leave behind shows in the
    next padded field: after a date, a bond or a swap, a text written with
    [setw n] is padded with zeros, whatever fill character the stream had
    before. *)
Theorem zero_fill_after_rendering :
  forall (os : ostream) (n : nat) (s : string),
    (forall d : year_month_day,
        buf (os << d << setw n << s)
        = buf (os << d) ++ replicate (n - String.length s) "0"%char ++ s)
    /\ (forall b : Bond.t,
          buf (os << b << setw n << s)
          = buf (os << b) ++ replicate (n - String.length s) "0"%char ++ s)
    /\ (forall w : IRSwap.t,
          buf (os << w << setw n << s)
          = buf (os << w) ++ replicate (n - String.length s) "0"%char ++ s).
Proof.
  intros os n s.
  split; [|split]; intros x.
  - rewrite insert_date_any. reflexivity.
  - rewrite insert_Bond_any. reflexivity.
  - rewrite insert_IRSwap_any. reflexivity.
Qed.

(** X4. Bonds written one after the other to a stream of width 0, and
    swaps likewise, give their lines one after the other: the fill
    character left by one does not change the next. *)
Theorem rendering_in_sequence :
  (forall (bs : list Bond.t) (os : ostream),
      width os = 0%nat ->
      buf (fold_left (fun o b => o << b) bs os)
      = buf os ++ String.concat "" (map Bond_text bs))
  /\
  (forall (ws : list IRSwap.t) (os : ostream),
      width os = 0%nat ->
      buf (fold_left (fun o w => o << w) ws os)
      = buf os ++ String.concat "" (map IRSwap_text ws)).
Proof.
  assert (concat_cons : forall (x : string) (l : list string),
             String.concat "" (x :: l) = x ++ String.concat "" l).
  { intros x [|y l]; cbn [String.concat]; [|reflexivity].
    induction x as [|c x IH]; cbn [append]; [reflexivity | now rewrite <- IH]. }
  split.
  - induction bs as [|b bs IH]; intros os H.
    + cbn [fold_left map String.concat].
      induction (buf os) as [|c t IHt]; cbn [append];
        [reflexivity | now rewrite <- IHt].
    + cbn [fold_left map]. rewrite concat_cons.
      rewrite IH by (rewrite insert_Bond_spec by exact H; reflexivity).
      rewrite insert_Bond_spec by exact H. cbn [buf].
      now rewrite append_assoc.
  - induction ws as [|w ws IH]; intros os H.
    + cbn [fold_left map String.concat].
      induction (buf os) as [|c t IHt]; cbn [append];
        [reflexivity | now rewrite <- IHt].
    + cbn [fold_left map]. rewrite concat_cons.
      rewrite IH by (rewrite insert_IRSwap_spec by exact H; reflexivity).
      rewrite insert_IRSwap_spec by exact H. cbn [buf].
      now rewrite append_assoc.
Qed.

(** Two bonds and two swaps on a new stream. *)
Lemma rendering_in_sequence_witness :
  (width ostringstream = 0%nat
   /\ buf (fold_left (fun o b => o << b)
             [sample_bond; bond_maturing_in_800] ostringstream)
      = "T 4.25 2030-06-15T 4.25 800-01-01")
  /\ (width ostringstream = 0%nat
      /\ buf (fold_left (fun o w => o << w)
                [sample_swap; value_initialized_IRSwap] ostringstream)
         = buf ostringstream
           ++ String.concat ""
                (map IRSwap_text [sample_swap; value_initialized_IRSwap])).
Proof.
  destruct rendering_in_sequence as [HB HW].
  split; (split; [reflexivity|]).
  - rewrite (HB [sample_bond; bond_maturing_in_800] ostringstream eq_refl).
    vm_compute. reflexivity.
  - exact (HW [sample_swap; value_initialized_IRSwap] ostringstream eq_refl).
Defined.

(* ===================================================================== *)
(** ** Further properties: construction *)
(* ===================================================================== *)

(** X5. The parameterized constructors leave no member as the storage held
    it: the constructed [Product], [Bond] and [IRSwap] are fixed by the
    arguments alone. The member [productId] that [Bond] declares itself is
    never assigned and stays empty; the identifier lives in the [Product]
    sub-object only. *)
Theorem constructors_initialize_every_member :
  (forall (raw : Product.t) (_productId : string)
          (_productType : ProductType),
      Product.Product raw _productId _productType
      = Product.mk _productId _productType)
  /\
  (forall (raw : Bond.t) (_productId : string) (_bondIdType : BondIdType)
          (_ticker : string) (_coupon : double)
          (_maturityDate : year_month_day),
      Bond.Bond raw _productId _bondIdType _ticker _coupon _maturityDate
      = Bond.mk (Product.mk _productId BOND) "" _bondIdType _ticker _coupon
          _maturityDate)
  /\
  (forall (raw : IRSwap.t) (_productId : string)
          (_fixedLegDayCountConvention : DayCountConvention)
          (_floatingLegDayCountConvention : DayCountConvention)
          (_fixedLegPaymentFrequency : PaymentFrequency)
          (_floatingIndex : FloatingIndex)
          (_floatingIndexTenor : FloatingIndexTenor)
          (_effectiveDate _terminationDate : year_month_day)
          (_currency : Currency) (_termYears : Z)
          (_swapType : SwapType) (_swapLegType : SwapLegType),
      IRSwap.IRSwap raw _productId _fixedLegDayCountConvention
        _floatingLegDayCountConvention _fixedLegPaymentFrequency
        _floatingIndex _floatingIndexTenor _effectiveDate _terminationDate
        _currency _termYears _swapType _swapLegType
      = IRSwap.mk (Product.mk _productId IRSWAP)
          _fixedLegDayCountConvention _floatingLegDayCountConvention
          _fixedLegPaymentFrequency _floatingIndex _floatingIndexTenor
          _effectiveDate _terminationDate _currency _termYears _swapType
          _swapLegType).
Proof.
  split; [|split]; intros; reflexivity.
Qed.

(** X6. The default constructors set no type tag: a default constructed
    [Bond] or [IRSwap] answers to [GetProductType] what the storage held,
    while its identifier, and the ticker of a bond, are empty. A value
    initialised [Bond] therefore answers [IRSWAP], the enumerator of value
    0, and not [BOND]; it is written with an empty ticker, coupon 0 and the
    date of three zeros. *)
Theorem default_constructors_set_no_tag :
  (forall raw : Bond.t,
      result Bond.GetProductType (Bond.Bond_default raw)
      = result Bond.GetProductType raw
      /\ result Bond.GetProductId (Bond.Bond_default raw) = ""
      /\ result Bond.GetTicker (Bond.Bond_default raw) = ""
      /\ result Bond.GetBondIdType (Bond.Bond_default raw)
         = result Bond.GetBondIdType raw
      /\ result Bond.GetCoupon (Bond.Bond_default raw)
         = result Bond.GetCoupon raw
      /\ result Bond.GetMaturityDate (Bond.Bond_default raw)
         = result Bond.GetMaturityDate raw)
  /\
  (forall raw : IRSwap.t,
      result IRSwap.GetProductType (IRSwap.IRSwap_default raw)
      = result IRSwap.GetProductType raw
      /\ result IRSwap.GetProductId (IRSwap.IRSwap_default raw) = ""
      /\ IRSwap.IRSwap_default raw
         = IRSwap.set_base raw
             (Product.mk "" (result IRSwap.GetProductType raw)))
  /\ result Bond.GetProductType value_initialized_Bond = IRSWAP
  /\ result Bond.GetProductType value_initialized_Bond <> BOND
  /\ result IRSwap.GetProductType value_initialized_IRSwap = IRSWAP
  /\ str (ostringstream << value_initialized_Bond) = " 0 0-00-00".
Proof.
  split; [|split; [|split; [|split; [|split]]]].
  - intros raw. repeat split; reflexivity.
  - intros raw. repeat split; reflexivity.
  - reflexivity.
  - vm_compute. discriminate.
  - reflexivity.
  - vm_compute. reflexivity.
Qed.

(* ===================================================================== *)
(** ** Further properties: labels *)
(* ===================================================================== *)

(** X7. For each of the seven enumerations, the label of a value is empty
    exactly when the value is none of the enumerators: an enumerator never
    gets the empty label, so the empty label tells the values outside the
    enumeration apart. *)
Theorem empty_label_iff_outside :
  forall z : Z,
    (IRSwap.ToString_DayCountConvention z = ""
       <-> ~ In z DayCountConvention_enumerators)
    /\ (IRSwap.ToString_PaymentFrequency z = ""
          <-> ~ In z PaymentFrequency_enumerators)
    /\ (IRSwap.ToString_FloatingIndex z = ""
          <-> ~ In z FloatingIndex_enumerators)
    /\ (IRSwap.ToString_FloatingIndexTenor z = ""
          <-> ~ In z FloatingIndexTenor_enumerators)
    /\ (IRSwap.ToString_Currency z = "" <-> ~ In z Currency_enumerators)
    /\ (IRSwap.ToString_SwapType z = "" <-> ~ In z SwapType_enumerators)
    /\ (IRSwap.ToString_SwapLegType z = ""
          <-> ~ In z SwapLegType_enumerators).
Proof.
  intros z.
  repeat match goal with |- _ /\ _ => split end;
    (split;
     [ intros E Hin; in_enumerators Hin; vm_compute in E; discriminate E
     | intros H; apply switch_default; exact H ]).
Qed.

(** The enumerator [SEMI_ANNUAL] has a label that is not empty; the value
    7 is no enumerator of [SwapType] and its label is empty. *)
Lemma empty_label_iff_outside_witness :
  (In SEMI_ANNUAL PaymentFrequency_enumerators
   /\ IRSwap.ToString_PaymentFrequency SEMI_ANNUAL <> "")
  /\ (~ In 7 SwapType_enumerators /\ IRSwap.ToString_SwapType 7 = "").
Proof.
  destruct (empty_label_iff_outside SEMI_ANNUAL) as (_ & [H2 _] & _).
  destruct (empty_label_iff_outside 7) as (_ & _ & _ & _ & _ & [_ H6] & _).
  assert (I : In SEMI_ANNUAL PaymentFrequency_enumerators) by (simpl; auto).
  assert (O : ~ In 7 SwapType_enumerators) by (cbv; lia).
  exact (conj (conj I (fun E => H2 E I)) (conj O (H6 O))).
Defined.

(* ===================================================================== *)
(** ** Further properties: the characters of the lines *)
(* ===================================================================== *)

Lemma count_char_app (c : ascii) (a b : string) :
  count_char c (a ++ b) = (count_char c a + count_char c b)%nat.
Proof.
  induction a as [|x a IH]; cbn [append count_char]; [reflexivity|].
  rewrite IH. now rewrite Nat.add_assoc.
Qed.

Lemma forall_chars_app (P : ascii -> bool) (a b : string) :
  forall_chars P (a ++ b) = forall_chars P a && forall_chars P b.
Proof.
  induction a as [|x a IH]; cbn [append forall_chars]; [reflexivity|].
  rewrite IH. now rewrite andb_assoc.
Qed.

Lemma forall_chars_weaken (P Q : ascii -> bool) (s : string) :
  (forall c, P c = true -> Q c = true) ->
  forall_chars P s = true -> forall_chars Q s = true.
Proof.
  intros PQ. induction s as [|x s IH]; cbn [forall_chars]; [reflexivity|].
  rewrite !andb_true_iff. intros [Hx Hs]. auto.
Qed.

Lemma forall_chars_count (P : ascii -> bool) (c : ascii) (s : string) :
  P c = false -> forall_chars P s = true -> count_char c s = 0%nat.
Proof.
  intros Hc. induction s as [|x s IH]; cbn [forall_chars count_char];
    [reflexivity|].
  rewrite andb_true_iff. intros [Hx Hs].
  destruct (Ascii.eqb_spec x c) as [->|_]; [congruence|].
  now rewrite IH.
Qed.

Lemma forall_chars_replicate (P : ascii -> bool) (n : nat) (c : ascii) :
  P c = true -> forall_chars P (replicate n c) = true.
Proof.
  intros Hc. induction n as [|n IH]; cbn [replicate forall_chars];
    [reflexivity | now rewrite Hc, IH].
Qed.

Lemma forall_chars_substring (P : ascii -> bool) (s : string) :
  forall n m : nat,
    forall_chars P s = true -> forall_chars P (substring n m s) = true.
Proof.
  induction s as [|x s IH]; intros n m H.
  - destruct n, m; reflexivity.
  - cbn [forall_chars] in H. apply andb_true_iff in H as [Hx Hs].
    destruct n as [|n]; [destruct m as [|m]|]; cbn [substring forall_chars].
    + reflexivity.
    + rewrite Hx. now apply IH.
    + now apply IH.
Qed.

Lemma forall_chars_strip_zeros (P : ascii -> bool) (s : string) :
  forall_chars P s = true -> forall_chars P (strip_zeros s) = true.
Proof.
  induction s as [|x s IH]; cbn [strip_zeros forall_chars]; [reflexivity|].
  rewrite andb_true_iff. intros [Hx Hs]. specialize (IH Hs).
  destruct (strip_zeros s) as [|y r].
  - destruct (Ascii.eqb x "0"); cbn [forall_chars];
      [reflexivity | now rewrite Hx].
  - cbn [forall_chars] in *. now rewrite Hx, IH.
Qed.

(** The digits of a decimal number are digits. *)
Lemma digits_of_uint (u : Decimal.uint) :
  forall_chars is_digit (NilEmpty.string_of_uint u) = true.
Proof.
  induction u; cbn [NilEmpty.string_of_uint forall_chars];
    [reflexivity | rewrite IHu; reflexivity ..].
Qed.

Lemma digits_of_uint_zero (u : Decimal.uint) :
  forall_chars is_digit (NilZero.string_of_uint u) = true.
Proof.
  destruct u; try reflexivity;
    match goal with
    | |- context [NilZero.string_of_uint ?d] => exact (digits_of_uint d)
    end.
Qed.

Lemma digits_of_dec_unsigned (n : N) :
  forall_chars is_digit (dec_unsigned n) = true.
Proof. apply digits_of_uint_zero. Qed.

(** The text of an integer: digits, behind a hyphen when it is negative. *)
Lemma dec_int_nonneg (z : Z) :
  0 <= z -> forall_chars is_digit (dec_int z) = true.
Proof.
  intros H. unfold dec_int.
  destruct z as [|p|p]; [reflexivity| |lia].
  apply digits_of_uint_zero.
Qed.

Lemma dec_int_neg (z : Z) :
  z < 0 ->
  exists s, dec_int z = String "-" s /\ forall_chars is_digit s = true.
Proof.
  intros H. unfold dec_int.
  destruct z as [|p|p]; [lia|lia|].
  eexists. split; [reflexivity|]. apply digits_of_uint_zero.
Qed.

Lemma is_digit_graphic (c : ascii) : is_digit c = true -> is_graphic c = true.
Proof.
  destruct c as [[] [] [] [] [] [] [] []]; vm_compute; intros H;
    first [reflexivity | discriminate H].
Qed.

Lemma graphic_dec_int (z : Z) : forall_chars is_graphic (dec_int z) = true.
Proof.
  destruct (Z.lt_ge_cases z 0) as [H|H].
  - destruct (dec_int_neg z H) as (s & -> & Hs).
    cbn [forall_chars]. rewrite (forall_chars_weaken _ _ _ is_digit_graphic Hs).
    reflexivity.
  - apply (forall_chars_weaken _ _ _ is_digit_graphic).
    now apply dec_int_nonneg.
Qed.

Lemma graphic_two_digits (n : N) : forall_chars is_graphic (two_digits n) = true.
Proof.
  unfold two_digits. rewrite forall_chars_app.
  rewrite forall_chars_replicate by reflexivity.
  apply (forall_chars_weaken _ _ _ is_digit_graphic), digits_of_dec_unsigned.
Qed.

Lemma graphic_date_text (d : year_month_day) :
  forall_chars is_graphic (date_text d) = true.
Proof.
  unfold date_text. rewrite !forall_chars_app.
  now rewrite graphic_dec_int, !graphic_two_digits.
Qed.

Lemma graphic_switch (x : Z) (cases : list (Z * string)) (d : string) :
  forall_chars is_graphic d = true ->
  forallb (fun kv => forall_chars is_graphic (snd kv)) cases = true ->
  forall_chars is_graphic (switch x cases d) = true.
Proof.
  intros Hd. induction cases as [|[k v] rest IH]; cbn [switch forallb snd];
    [intros _; exact Hd|].
  rewrite andb_true_iff. intros [Hv Hr].
  destruct (x =? k); auto.
Qed.

Lemma graphic_with_fraction (ip fp : string) :
  forall_chars is_graphic ip = true -> forall_chars is_graphic fp = true ->
  forall_chars is_graphic (with_fraction ip fp) = true.
Proof.
  intros Hi Hf. unfold with_fraction.
  pose proof (forall_chars_strip_zeros _ _ Hf) as Hs.
  destruct (strip_zeros fp) as [|y r]; [exact Hi|].
  rewrite !forall_chars_app, Hi, Hs. reflexivity.
Qed.

Lemma graphic_general_notation (P n d : Z) :
  forall_chars is_graphic (general_notation P n d) = true.
Proof.
  unfold general_notation.
  destruct (significand P n d) as [D X].
  pose proof (graphic_dec_int D) as HD.
  destruct ((-4 <=? X) && (X <? P)); [destruct (0 <=? X)|].
  - apply graphic_with_fraction; now apply forall_chars_substring.
  - apply graphic_with_fraction; [reflexivity|].
    rewrite forall_chars_app, HD.
    now rewrite forall_chars_replicate.
  - rewrite forall_chars_app.
    rewrite graphic_with_fraction by now apply forall_chars_substring.
    unfold exponent_suffix. rewrite !forall_chars_app.
    pose proof (graphic_dec_int (Z.abs X)) as HX.
    destruct (X <? 0), (Z.abs X <? 10); cbn [forall_chars append];
      rewrite ?HX; reflexivity.
Qed.

Lemma graphic_dec_double (x : double) :
  forall_chars is_graphic (dec_double x) = true.
Proof.
  destruct x as [[]|[]|[]|neg m e]; try reflexivity.
  unfold dec_double. rewrite forall_chars_app.
  destruct (0 <=? e); rewrite graphic_general_notation;
    destruct neg; reflexivity.
Qed.

Ltac graphic_label :=
  apply graphic_switch; [reflexivity | vm_compute; reflexivity].

Lemma graphic_labels (z : Z) :
  forall_chars is_graphic (IRSwap.ToString_DayCountConvention z) = true
  /\ forall_chars is_graphic (IRSwap.ToString_PaymentFrequency z) = true
  /\ forall_chars is_graphic (IRSwap.ToString_FloatingIndex z) = true
  /\ forall_chars is_graphic (IRSwap.ToString_FloatingIndexTenor z) = true
  /\ forall_chars is_graphic (IRSwap.ToString_Currency z) = true
  /\ forall_chars is_graphic (IRSwap.ToString_SwapType z) = true
  /\ forall_chars is_graphic (IRSwap.ToString_SwapLegType z) = true.
Proof. repeat split; graphic_label. Qed.

Lemma graphic_count (s : string) :
  forall_chars is_graphic s = true ->
  count_char " " s = 0%nat /\ count_char newline s = 0%nat.
Proof.
  intros H. split; apply (forall_chars_count is_graphic); auto.
Qed.

(** X8. The line of every swap, whatever its members hold, has exactly
    nine spaces and no line feed: it is one line of ten fields separated by
    single spaces, a label outside its enumeration leaving its field
    empty. *)
Theorem IRSwap_line_shape :
  forall w : IRSwap.t,
    count_char " " (str (ostringstream << w)) = 9%nat
    /\ count_char newline (str (ostringstream << w)) = 0%nat.
Proof.
  intros w. unfold str. rewrite insert_IRSwap_spec by reflexivity.
  cbn [buf ostringstream append]. unfold IRSwap_text.
  destruct (graphic_labels (IRSwap.fixedLegDayCountConvention w))
    as (L1 & _).
  destruct (graphic_labels (IRSwap.floatingLegDayCountConvention w))
    as (L2 & _).
  destruct (graphic_labels (IRSwap.fixedLegPaymentFrequency w))
    as (_ & L3 & _).
  destruct (graphic_labels (IRSwap.floatingIndexTenor w))
    as (_ & _ & _ & L4 & _).
  destruct (graphic_labels (IRSwap.floatingIndex w)) as (_ & _ & L5 & _).
  destruct (graphic_labels (IRSwap.currency w)) as (_ & _ & _ & _ & L6 & _).
  destruct (graphic_labels (IRSwap.swapType w))
    as (_ & _ & _ & _ & _ & L7 & _).
  destruct (graphic_labels (IRSwap.swapLegType w))
    as (_ & _ & _ & _ & _ & _ & L8).
  pose proof (graphic_date_text (IRSwap.effectiveDate w)) as D1.
  pose proof (graphic_date_text (IRSwap.terminationDate w)) as D2.
  pose proof (graphic_dec_int (IRSwap.termYears w)) as T.
  apply graphic_count in L1, L2, L3, L4, L5, L6, L7, L8, D1, D2, T.
  destruct L1 as [L1 L1'], L2 as [L2 L2'], L3 as [L3 L3'], L4 as [L4 L4'],
    L5 as [L5 L5'], L6 as [L6 L6'], L7 as [L7 L7'], L8 as [L8 L8'],
    D1 as [D1 D1'], D2 as [D2 D2'], T as [T T'].
  rewrite !count_char_app.
  rewrite L1, L2, L3, L4, L5, L6, L7, L8, D1, D2, T.
  rewrite L1', L2', L3', L4', L5', L6', L7', L8', D1', D2', T'.
  split; reflexivity.
Qed.

(** X9. The line of a bond has two spaces more than its ticker and as many
    line feeds as its ticker: with a ticker free of spaces and line feeds it
    is one line of three fields. *)
Theorem Bond_line_shape :
  forall b : Bond.t,
    count_char " " (str (ostringstream << b))
    = (count_char " " (Bond.ticker b) + 2)%nat
    /\ count_char newline (str (ostringstream << b))
       = count_char newline (Bond.ticker b).
Proof.
  intros b. unfold str. rewrite insert_Bond_spec by reflexivity.
  cbn [buf ostringstream append]. unfold Bond_text.
  destruct (graphic_count _ (graphic_dec_double (Bond.coupon b))) as [C C'].
  destruct (graphic_count _ (graphic_date_text (Bond.maturityDate b)))
    as [D D'].
  rewrite !count_char_app, C, C', D, D'.
  cbn [count_char]. split.
  - change (if Ascii.eqb " " " " then 1 else 0)%nat with 1%nat. lia.
  - change (if Ascii.eqb " " newline then 1 else 0)%nat with 0%nat. lia.
Qed.

(* ===================================================================== *)
(** ** Further properties: the text of a date *)
(* ===================================================================== *)

Lemma is_digit_not_hyphen (c : ascii) : is_digit c = true -> is_hyphen c = false.
Proof.
  destruct c as [[] [] [] [] [] [] [] []]; vm_compute; intros H;
    first [reflexivity | discriminate H].
Qed.

Lemma split_at_hyphen_digits (a r : string) :
  forall_chars is_digit a = true ->
  split_at_hyphen (a ++ String "-" r) = (a, r).
Proof.
  induction a as [|c a IH]; cbn [append forall_chars split_at_hyphen].
  - intros _. reflexivity.
  - rewrite andb_true_iff. intros [Hc Ha].
    rewrite (is_digit_not_hyphen c Hc), (IH Ha). reflexivity.
Qed.

Lemma string_of_uint_nonnil (u : Decimal.uint) :
  u <> Decimal.Nil -> NilZero.string_of_uint u = NilEmpty.string_of_uint u.
Proof. destruct u; [congruence | reflexivity ..]. Qed.

Lemma zeros_in_front (k : nat) (u : Decimal.uint) :
  u <> Decimal.Nil ->
  replicate k "0"%char ++ NilZero.string_of_uint u
  = NilZero.string_of_uint (Nat.iter k Decimal.D0 u)
  /\ Nat.iter k Decimal.D0 u <> Decimal.Nil
  /\ N.of_uint (Nat.iter k Decimal.D0 u) = N.of_uint u.
Proof.
  intros Hu. induction k as [|k (IH1 & IH2 & IH3)].
  - cbn. auto.
  - cbn [replicate append Nat.iter]. rewrite IH1.
    rewrite (string_of_uint_nonnil _ IH2).
    split; [reflexivity|]. split; [discriminate|]. exact IH3.
Qed.

Lemma to_uint_nonnil (n : N) : N.to_uint n <> Decimal.Nil.
Proof.
  destruct n as [|p]; [discriminate|]. apply DecimalPos.Unsigned.to_uint_nonnil.
Qed.

(** Month and day are read back from their two digits. *)
Lemma read_unsigned_two_digits (n : N) : read_unsigned (two_digits n) = Some n.
Proof.
  unfold read_unsigned, two_digits, dec_unsigned.
  destruct (zeros_in_front
              (2 - String.length (NilZero.string_of_uint (N.to_uint n)))
              (N.to_uint n) (to_uint_nonnil n)) as (E & Hnn & Hof).
  rewrite E, (NilZero.usu _ Hnn). cbn [option_map].
  now rewrite Hof, DecimalN.Unsigned.of_to.
Qed.

(** The year is read back from its text. *)
Lemma read_int_dec_int (z : Z) : read_int (dec_int z) = Some z.
Proof.
  unfold read_int, dec_int.
  rewrite NilZero.isi.
  - cbn [option_map]. now rewrite DecimalZ.of_to.
  - destruct z as [|p|p]; try discriminate.
    intros H. injection H as H. now apply DecimalPos.Unsigned.to_uint_nonnil in H.
  - destruct z as [|p|p]; try discriminate.
    intros H. injection H as H. now apply DecimalPos.Unsigned.to_uint_nonnil in H.
Qed.

Lemma dec_int_nonempty (z : Z) :
  0 <= z -> exists c s, dec_int z = String c s.
Proof.
  intros H. unfold dec_int.
  destruct z as [|p|p]; [now exists "0"%char, ""| |lia].
  cbn [Z.to_int NilZero.string_of_int].
  destruct (Pos.to_uint p); cbn; eauto.
Qed.

(** The text of a date read back gives the date. *)
Lemma read_date_text (d : year_month_day) : read_date (date_text d) = Some d.
Proof.
  destruct d as [y m dd]. unfold date_text. cbn [year month day].
  pose proof (read_int_dec_int y) as Ry.
  pose proof (read_unsigned_two_digits m) as Rm.
  pose proof (read_unsigned_two_digits dd) as Rd.
  assert (Hm : forall_chars is_digit (two_digits m) = true).
  { unfold two_digits. rewrite forall_chars_app, digits_of_dec_unsigned.
    now rewrite forall_chars_replicate. }
  change ("-" ++ two_digits m ++ "-" ++ two_digits dd)
    with (String "-" (two_digits m ++ String "-" (two_digits dd))).
  unfold read_date.
  destruct (Z.lt_ge_cases y 0) as [Hy|Hy].
  - destruct (dec_int_neg y Hy) as (s & E & Hs). rewrite E in *.
    cbn [append]. change (is_hyphen "-") with true. cbv iota.
    rewrite (split_at_hyphen_digits s _ Hs).
    rewrite (split_at_hyphen_digits _ _ Hm).
    change ("-" ++ s) with (String "-" s). now rewrite Ry, Rm, Rd.
  - pose proof (dec_int_nonneg y Hy) as Hs.
    destruct (dec_int_nonempty y Hy) as (c & s & E). rewrite E in *.
    cbn [append]. cbn [forall_chars] in Hs.
    pose proof Hs as Hs'. apply andb_true_iff in Hs' as [Hc _].
    rewrite (is_digit_not_hyphen c Hc).
    change (String c (s ++ String "-" (two_digits m ++ String "-" (two_digits dd))))
      with (String c s ++ String "-" (two_digits m ++ String "-" (two_digits dd))).
    rewrite (split_at_hyphen_digits (String c s) _ Hs).
    rewrite (split_at_hyphen_digits _ _ Hm).
    cbn [append]. now rewrite Ry, Rm, Rd.
Qed.

(** X10. The text that the date inserter writes determines the date: two
    dates written alike are the same date, whatever their year, month and
    day, valid or not. *)
Theorem date_text_determines_date :
  forall d d' : year_month_day,
    str (ostringstream << d) = str (ostringstream << d') -> d = d'.
Proof.
  intros d d'. unfold str.
  rewrite !insert_date by reflexivity. cbn [buf ostringstream append].
  intros E.
  pose proof (read_date_text d) as R. rewrite E, read_date_text in R.
  now injection R.
Qed.

(** Two bonds with one maturity date: the texts of their dates agree, and
    so do the dates. *)
Lemma date_text_determines_date_witness :
  str (ostringstream << Bond.maturityDate sample_bond)
  = str (ostringstream << mkDate 2030 6 15)
  /\ Bond.maturityDate sample_bond = mkDate 2030 6 15.
Proof.
  assert (E : str (ostringstream << Bond.maturityDate sample_bond)
              = str (ostringstream << mkDate 2030 6 15)) by reflexivity.
  exact (conj E (date_text_determines_date _ _ E)).
Defined.

Lemma forall_chars_forallb (P : ascii -> bool) (s : string) :
  forallb P (list_ascii_of_string s) = forall_chars P s.
Proof.
  induction s as [|c s IH]; cbn [list_ascii_of_string forallb forall_chars];
    [reflexivity | now rewrite IH].
Qed.

Lemma is_digits_forall_chars (n : nat) (s : string) :
  is_digits n s = true -> forall_chars is_digit s = true.
Proof.
  unfold is_digits. rewrite andb_true_iff, forall_chars_forallb. tauto.
Qed.

Lemma is_YYYY_MM_DD_inv (s : string) :
  is_YYYY_MM_DD s = true ->
  exists a b c : string,
    s = a ++ String "-" (b ++ String "-" c)
    /\ is_digits 4 a = true /\ is_digits 2 b = true /\ is_digits 2 c = true.
Proof.
  unfold is_YYYY_MM_DD.
  destruct s as [|y1 [|y2 [|y3 [|y4 [|h1 [|m1 [|m2 [|h2 [|d1 [|d2 [|x s]]]]]]]]]]];
    cbn [list_ascii_of_string]; try discriminate.
  cbn [forallb]. rewrite !andb_true_iff.
  intros [[(Y1 & Y2 & Y3 & Y4 & M1 & M2 & D1 & D2 & _) H1] H2].
  apply Ascii.eqb_eq in H1, H2. subst h1 h2.
  exists (String y1 (String y2 (String y3 (String y4 "")))),
    (String m1 (String m2 "")), (String d1 (String d2 "")).
  unfold is_digits. cbn [String.length Nat.eqb list_ascii_of_string forallb append].
  rewrite Y1, Y2, Y3, Y4, M1, M2, D1, D2. auto.
Qed.

Lemma in_zrange (n : nat) :
  forall lo y : Z, lo <= y < lo + Z.of_nat n -> In y (zrange n lo).
Proof.
  induction n as [|n IH]; intros lo y H; [lia|].
  cbn [zrange In].
  destruct (Z.eq_dec lo y) as [E|E]; [now left | right].
  apply IH. lia.
Qed.

Lemma years_table :
  forallb (fun y => implb (is_digits 4 (dec_int y))
                          ((1000 <=? y) && (y <=? 9999)))
          (zrange (Z.to_nat 65535) (-32767)) = true.
Proof. vm_compute. reflexivity. Qed.

Lemma months_days_table :
  forallb (fun k => implb (is_digits 2 (two_digits (N.of_nat k)))
                          (N.of_nat k <=? 99)%N)
          (seq 0 (Z.to_nat 256)) = true.
Proof. vm_compute. reflexivity. Qed.

Lemma four_digits_year (y : Z) :
  -32767 <= y <= 32767 -> is_digits 4 (dec_int y) = true -> 1000 <= y <= 9999.
Proof.
  intros Hy H. pose proof years_table as T. rewrite forallb_forall in T.
  specialize (T y). rewrite H in T. cbn [implb] in T.
  assert (Hin : In y (zrange (Z.to_nat 65535) (-32767)))
    by (apply in_zrange; lia).
  apply T in Hin. apply andb_true_iff in Hin as [H1 H2].
  apply Z.leb_le in H1, H2. lia.
Qed.

Lemma two_digits_month_day (n : N) :
  (n <= 255)%N -> is_digits 2 (two_digits n) = true -> (n <= 99)%N.
Proof.
  intros Hn H. pose proof months_days_table as T. rewrite forallb_forall in T.
  specialize (T (N.to_nat n)). rewrite N2Nat.id, H in T. cbn [implb] in T.
  apply N.leb_le, T, in_seq. lia.
Qed.

(** X11. For the values a [year_month_day] can hold, the text that the date
    inserter writes on a new stream has the form [YYYY-MM-DD] exactly when
    the year is from 1000 to 9999 and month and day are at most 99. *)
Theorem YYYY_MM_DD_exactly :
  forall d : year_month_day,
    storable d ->
    (is_YYYY_MM_DD (str (ostringstream << d)) = true
     <-> 1000 <= year d <= 9999 /\ (month d <= 99)%N /\ (day d <= 99)%N).
Proof.
  intros d (Hy & Hm & Hd). unfold str.
  rewrite insert_date by reflexivity. cbn [buf ostringstream append].
  split.
  - intros H. apply is_YYYY_MM_DD_inv in H.
    destruct H as (a & b & c & E & Ha & Hb & Hc).
    assert (Hmd : forall_chars is_digit (two_digits (month d)) = true).
    { unfold two_digits. rewrite forall_chars_app, digits_of_dec_unsigned.
      now rewrite forall_chars_replicate. }
    unfold date_text in E.
    change (dec_int (year d) ++ "-" ++ two_digits (month d) ++ "-"
              ++ two_digits (day d))
      with (dec_int (year d)
              ++ String "-" (two_digits (month d)
                               ++ String "-" (two_digits (day d)))) in E.
    destruct (Z.lt_ge_cases (year d) 0) as [Hneg|Hpos].
    + exfalso. destruct (dec_int_neg _ Hneg) as (s & Es & _).
      rewrite Es in E.
      destruct (is_digits_4_inv a Ha) as (a1 & a2 & a3 & a4 & -> & A1 & _).
      cbn [append] in E. injection E as E1 _. subst a1. discriminate A1.
    + pose proof (f_equal split_at_hyphen E) as S.
      rewrite (split_at_hyphen_digits _ _ (dec_int_nonneg _ Hpos)) in S.
      rewrite (split_at_hyphen_digits _ _ (is_digits_forall_chars _ _ Ha)) in S.
      injection S as Sy Sr.
      pose proof (f_equal split_at_hyphen Sr) as S'.
      rewrite (split_at_hyphen_digits _ _ Hmd) in S'.
      rewrite (split_at_hyphen_digits _ _ (is_digits_forall_chars _ _ Hb)) in S'.
      injection S' as Sm Sd.
      rewrite <- Sy in Ha. rewrite <- Sm in Hb. rewrite <- Sd in Hc.
      split; [now apply four_digits_year|].
      split; now apply two_digits_month_day.
  - intros (Hy' & Hm' & Hd'). apply date_text_form; lia.
Qed.

(** The statement at (2030, 6, 15), of that form, and at the valid date
    (800, 1, 1), not of that form. *)
Lemma YYYY_MM_DD_exactly_witness :
  (storable (mkDate 2030 6 15)
   /\ is_YYYY_MM_DD (str (ostringstream << mkDate 2030 6 15)) = true)
  /\ (storable (mkDate 800 1 1)
      /\ ~ (1000 <= 800 <= 9999 /\ (1 <= 99)%N /\ (1 <= 99)%N)
      /\ is_YYYY_MM_DD (str (ostringstream << mkDate 800 1 1)) <> true).
Proof.
  assert (S1 : storable (mkDate 2030 6 15)) by (unfold storable; simpl; lia).
  assert (S2 : storable (mkDate 800 1 1)) by (unfold storable; simpl; lia).
  assert (R1 : 1000 <= 2030 <= 9999 /\ (6 <= 99)%N /\ (15 <= 99)%N) by lia.
  assert (R2 : ~ (1000 <= 800 <= 9999 /\ (1 <= 99)%N /\ (1 <= 99)%N)) by lia.
  exact (conj (conj S1 (proj2 (YYYY_MM_DD_exactly _ S1) R1))
              (conj S2 (conj R2
                 (fun H => R2 (proj1 (YYYY_MM_DD_exactly _ S2) H))))).
Defined.

(* ===================================================================== *)
(** ** Further properties: what the lines tell *)
(* ===================================================================== *)

Lemma append_length (a b : string) :
  String.length (a ++ b) = (String.length a + String.length b)%nat.
Proof.
  induction a as [|x a IH]; cbn [append String.length];
    [reflexivity | now rewrite IH].
Qed.

Lemma append_cancel_r (a b c : string) : a ++ c = b ++ c -> a = b.
Proof.
  intros H.
  assert (L : String.length a = String.length b).
  { apply (f_equal String.length) in H. rewrite !append_length in H. lia. }
  revert b H L. induction a as [|x a IH]; intros [|y b] H L;
    cbn [String.length] in L; try discriminate L; [reflexivity|].
  cbn [append] in H. injection H as -> H. f_equal. apply IH; [exact H | lia].
Qed.

(** Two texts cut at a space that neither has before the cut. *)
Lemma split_at_space (a a' r r' : string) :
  forall_chars is_graphic a = true -> forall_chars is_graphic a' = true ->
  a ++ String " " r = a' ++ String " " r' -> a = a' /\ r = r'.
Proof.
  revert a'. induction a as [|c a IH]; intros [|c' a'];
    cbn [append forall_chars]; intros Ha Ha' E.
  - injection E as E. auto.
  - injection E as Ec _. subst c'. discriminate Ha'.
  - injection E as Ec _. subst c. discriminate Ha.
  - apply andb_true_iff in Ha as [_ Ha]. apply andb_true_iff in Ha' as [_ Ha'].
    injection E as -> E. destruct (IH a' Ha Ha' E) as [-> ->]. auto.
Qed.

(** Fields free of spaces are read back from their line. *)
Lemma concat_fields_inj (l : list string) :
  forall l' : list string,
    List.length l = List.length l' ->
    forallb (forall_chars is_graphic) l = true ->
    forallb (forall_chars is_graphic) l' = true ->
    String.concat " " l = String.concat " " l' -> l = l'.
Proof.
  induction l as [|x l IH]; intros [|x' l'] L G G' E;
    cbn [List.length] in L; try discriminate L; [reflexivity|].
  cbn [forallb] in G, G'.
  apply andb_true_iff in G as [Gx G]. apply andb_true_iff in G' as [Gx' G'].
  destruct l as [|y l], l' as [|y' l']; cbn [List.length] in L;
    try discriminate L.
  - cbn [String.concat] in E. now subst.
  - change (String.concat " " (x :: y :: l))
      with (x ++ String " " (String.concat " " (y :: l))) in E.
    change (String.concat " " (x' :: y' :: l'))
      with (x' ++ String " " (String.concat " " (y' :: l'))) in E.
    destruct (split_at_space _ _ _ _ Gx Gx' E) as [-> E'].
    f_equal. apply IH; auto.
Qed.

Lemma Bond_text_fields (b : Bond.t) :
  Bond_text b = String.concat " " (Bond_fields b).
Proof. reflexivity. Qed.

Lemma IRSwap_text_fields (w : IRSwap.t) :
  IRSwap_text w = String.concat " " (IRSwap_fields w).
Proof.
  unfold IRSwap_text, IRSwap_fields. cbn [String.concat].
  repeat rewrite append_assoc. reflexivity.
Qed.

Lemma graphic_IRSwap_fields (w : IRSwap.t) :
  forallb (forall_chars is_graphic) (IRSwap_fields w) = true.
Proof.
  unfold IRSwap_fields. cbn [forallb]. rewrite !forall_chars_app.
  destruct (graphic_labels (IRSwap.fixedLegDayCountConvention w))
    as (L1 & _).
  destruct (graphic_labels (IRSwap.floatingLegDayCountConvention w))
    as (L2 & _).
  destruct (graphic_labels (IRSwap.fixedLegPaymentFrequency w))
    as (_ & L3 & _).
  destruct (graphic_labels (IRSwap.floatingIndexTenor w))
    as (_ & _ & _ & L4 & _).
  destruct (graphic_labels (IRSwap.floatingIndex w)) as (_ & _ & L5 & _).
  destruct (graphic_labels (IRSwap.currency w)) as (_ & _ & _ & _ & L6 & _).
  destruct (graphic_labels (IRSwap.swapType w))
    as (_ & _ & _ & _ & _ & L7 & _).
  destruct (graphic_labels (IRSwap.swapLegType w))
    as (_ & _ & _ & _ & _ & _ & L8).
  rewrite L1, L2, L3, L4, L5, L6, L7, L8.
  rewrite !graphic_date_text, graphic_dec_int. reflexivity.
Qed.

Lemma date_text_inj (d d' : year_month_day) :
  date_text d = date_text d' -> d = d'.
Proof.
  intros E. pose proof (read_date_text d) as R.
  rewrite E, read_date_text in R. now injection R.
Qed.

Lemma dec_int_inj (z z' : Z) : dec_int z = dec_int z' -> z = z'.
Proof.
  intros E. pose proof (read_int_dec_int z) as R.
  rewrite E, read_int_dec_int in R. now injection R.
Qed.

(** The labels tell the enumerators of an enumeration apart, also the
    labels of tenor and index written without a space between them. *)
Lemma labels_tell_enumerators :
  (forall a b, In a DayCountConvention_enumerators ->
      In b DayCountConvention_enumerators ->
      IRSwap.ToString_DayCountConvention a
      = IRSwap.ToString_DayCountConvention b -> a = b)
  /\ (forall a b, In a PaymentFrequency_enumerators ->
        In b PaymentFrequency_enumerators ->
        IRSwap.ToString_PaymentFrequency a
        = IRSwap.ToString_PaymentFrequency b -> a = b)
  /\ (forall a b, In a Currency_enumerators -> In b Currency_enumerators ->
        IRSwap.ToString_Currency a = IRSwap.ToString_Currency b -> a = b)
  /\ (forall a b, In a SwapType_enumerators -> In b SwapType_enumerators ->
        IRSwap.ToString_SwapType a = IRSwap.ToString_SwapType b -> a = b)
  /\ (forall a b, In a SwapLegType_enumerators ->
        In b SwapLegType_enumerators ->
        IRSwap.ToString_SwapLegType a = IRSwap.ToString_SwapLegType b ->
        a = b).
Proof. repeat split; labels_injective. Qed.

Lemma tenor_and_index_labels (t t' i i' : Z) :
  In t FloatingIndexTenor_enumerators ->
  In t' FloatingIndexTenor_enumerators ->
  In i FloatingIndex_enumerators -> In i' FloatingIndex_enumerators ->
  IRSwap.ToString_FloatingIndexTenor t ++ IRSwap.ToString_FloatingIndex i
  = IRSwap.ToString_FloatingIndexTenor t' ++ IRSwap.ToString_FloatingIndex i' ->
  t = t' /\ i = i'.
Proof.
  intros Ht Ht' Hi Hi' E.
  in_enumerators Ht; in_enumerators Ht'; in_enumerators Hi;
    in_enumerators Hi';
    first [ split; reflexivity | vm_compute in E; discriminate E ].
Qed.

(** X12. The line of a swap tells its eleven members: two swaps whose
    members of an enumeration type hold enumerators and whose lines on a new
    stream agree have the same conventions, frequency, index, tenor, dates,
    currency, term, type and leg type. Only the product identifier is not
    recovered. *)
Theorem IRSwap_line_determines_members :
  forall w w' : IRSwap.t,
    enumerators_only w -> enumerators_only w' ->
    str (ostringstream << w) = str (ostringstream << w') ->
    IRSwap.fixedLegDayCountConvention w = IRSwap.fixedLegDayCountConvention w'
    /\ IRSwap.floatingLegDayCountConvention w
       = IRSwap.floatingLegDayCountConvention w'
    /\ IRSwap.fixedLegPaymentFrequency w = IRSwap.fixedLegPaymentFrequency w'
    /\ IRSwap.floatingIndex w = IRSwap.floatingIndex w'
    /\ IRSwap.floatingIndexTenor w = IRSwap.floatingIndexTenor w'
    /\ IRSwap.effectiveDate w = IRSwap.effectiveDate w'
    /\ IRSwap.terminationDate w = IRSwap.terminationDate w'
    /\ IRSwap.currency w = IRSwap.currency w'
    /\ IRSwap.termYears w = IRSwap.termYears w'
    /\ IRSwap.swapType w = IRSwap.swapType w'
    /\ IRSwap.swapLegType w = IRSwap.swapLegType w'.
Proof.
  intros w w' (A1 & A2 & A3 & A4 & A5 & A6 & A7 & A8)
    (B1 & B2 & B3 & B4 & B5 & B6 & B7 & B8).
  unfold str. rewrite !insert_IRSwap_spec by reflexivity.
  cbn [buf ostringstream append]. rewrite !IRSwap_text_fields. intros E.
  apply concat_fields_inj in E;
    [ | reflexivity | apply graphic_IRSwap_fields .. ].
  unfold IRSwap_fields in E.
  injection E as E1 E2 E3 E4 E5 E6 E7 E8 E9 E10.
  apply append_cancel_r in E8.
  destruct labels_tell_enumerators as (I1 & I2 & I3 & I4 & I5).
  destruct (tenor_and_index_labels _ _ _ _ A5 B5 A4 B4 E4) as [T X].
  repeat match goal with |- _ /\ _ => split end;
    eauto using date_text_inj, dec_int_inj.
Qed.

(** X13. The line of a bond whose ticker has neither space nor line feed
    tells the ticker, the maturity date and the coupon as far as it is
    written: two such bonds whose lines on a new stream agree have the same
    ticker, the same maturity date and the same coupon text. *)
Theorem Bond_line_determines_fields :
  forall b b' : Bond.t,
    forall_chars is_graphic (Bond.ticker b) = true ->
    forall_chars is_graphic (Bond.ticker b') = true ->
    str (ostringstream << b) = str (ostringstream << b') ->
    Bond.ticker b = Bond.ticker b'
    /\ dec_double (Bond.coupon b) = dec_double (Bond.coupon b')
    /\ Bond.maturityDate b = Bond.maturityDate b'.
Proof.
  intros b b' G G'.
  unfold str. rewrite !insert_Bond_spec by reflexivity.
  cbn [buf ostringstream append]. rewrite !Bond_text_fields. intros E.
  apply concat_fields_inj in E; [ | reflexivity | | ].
  - unfold Bond_fields in E. injection E as E1 E2 E3.
    auto using date_text_inj.
  - unfold Bond_fields. cbn [forallb].
    now rewrite G, graphic_dec_double, graphic_date_text.
  - unfold Bond_fields. cbn [forallb].
    now rewrite G', graphic_dec_double, graphic_date_text.
Qed.

(** The sample swap and the same swap under another identifier. *)
Lemma IRSwap_line_determines_members_witness :
  enumerators_only sample_swap
  /\ enumerators_only sample_swap_renamed
  /\ str (ostringstream << sample_swap)
     = str (ostringstream << sample_swap_renamed)
  /\ IRSwap.effectiveDate sample_swap = IRSwap.effectiveDate sample_swap_renamed
  /\ IRSwap.termYears sample_swap = IRSwap.termYears sample_swap_renamed
  /\ IRSwap.swapType sample_swap = IRSwap.swapType sample_swap_renamed.
Proof.
  assert (H : enumerators_only sample_swap)
    by (unfold enumerators_only; simpl; intuition).
  assert (H' : enumerators_only sample_swap_renamed)
    by (unfold enumerators_only; simpl; intuition).
  assert (E : str (ostringstream << sample_swap)
              = str (ostringstream << sample_swap_renamed)) by reflexivity.
  destruct (IRSwap_line_determines_members _ _ H H' E)
    as (_ & _ & _ & _ & _ & R6 & _ & _ & R9 & R10 & _).
  exact (conj H (conj H' (conj E (conj R6 (conj R9 R10))))).
Defined.

(** The sample bond and the same bond under another identifier and
    scheme. *)
Lemma Bond_line_determines_fields_witness :
  forall_chars is_graphic (Bond.ticker sample_bond) = true
  /\ forall_chars is_graphic (Bond.ticker sample_bond_renamed) = true
  /\ str (ostringstream << sample_bond)
     = str (ostringstream << sample_bond_renamed)
  /\ (Bond.ticker sample_bond = Bond.ticker sample_bond_renamed
      /\ dec_double (Bond.coupon sample_bond)
         = dec_double (Bond.coupon sample_bond_renamed)
      /\ Bond.maturityDate sample_bond
         = Bond.maturityDate sample_bond_renamed).
Proof.
  assert (G : forall_chars is_graphic (Bond.ticker sample_bond) = true)
    by reflexivity.
  assert (G' : forall_chars is_graphic (Bond.ticker sample_bond_renamed) = true)
    by reflexivity.
  assert (E : str (ostringstream << sample_bond)
              = str (ostringstream << sample_bond_renamed)) by reflexivity.
  exact (conj G (conj G' (conj E (Bond_line_determines_fields _ _ G G' E)))).
Defined.
